(** * Transcripto: a shallow embedding of [Transcripto.py]

    The program normalises an audio or video file, runs a speech model on it
    and writes the returned segments into a word-processing document; a small
    window holds the two selected paths and triggers the run.

    The embedding has four layers:
    - [PyStr] and [OsPath]: the string and path operations the program calls
      ([str.lower], [str.endswith], [os.path.splitext], [os.path.basename]);
    - [World], [Env] and the monad [M]: the file system, the log of calls to
      the external collaborators, the widget fields of the window, and
      Python exceptions;
    - the program: [validate_and_convert_file], [transcribe_audio] and the
      three handlers of [TranscriptionApp];
    - the theorems.

    Python strings are represented by their UTF-8 bytes (Rocq's [string]).
    The separators, the extension dot and every extension the program tests
    for are ASCII, and a byte below 128 never occurs inside the encoding of
    another character, so searching, slicing and testing a suffix on bytes
    agree with the same operations on characters. *)

From Stdlib Require Import ZArith Ascii DecimalString.
From stdpp Require Import base strings list gmap.

Local Open Scope Z_scope.

(** ** Python string operations *)

Module PyStr.

(** [c.lower()] on one ASCII character: capitals move to their small
    letter, every other byte is kept. *)
Definition lower_ascii (c : ascii) : ascii :=
  let n := N_of_ascii c in
  if ((65 <=? n) && (n <=? 90))%N then ascii_of_N (n + 32) else c.

(** The three bytes of U+212A KELVIN SIGN, the one character outside ASCII
    whose lowercase is an ASCII letter ([k]). *)
Definition is_kelvin_sign (c0 c1 c2 : ascii) : bool :=
  ((N_of_ascii c0 =? 226) && (N_of_ascii c1 =? 132)
   && (N_of_ascii c2 =? 170))%N.

(** [s.lower()]. ASCII capitals and the Kelvin sign are lowered; the bytes
    of every other character are kept. Python also lowers the other
    capitals outside ASCII, to characters outside ASCII: the program only
    compares lowered strings with ASCII strings, and on whether [s.lower()]
    equals a given ASCII string this function and Python's agree. *)
Fixpoint lower (s : string) : string :=
  match s with
  | EmptyString => EmptyString
  | String c rest =>
      match rest with
      | String c1 (String c2 rest') =>
          if is_kelvin_sign c c1 c2 then String "k" (lower rest')
          else String (lower_ascii c) (lower rest)
      | _ => String (lower_ascii c) (lower rest)
      end
  end.

(** [len(s)] *)
Definition len (s : string) : Z := Z.of_nat (String.length s).

(** [s.rfind(c)] for a one-character [c]: the highest index at which [c]
    occurs, [-1] when it does not occur. *)
Fixpoint rfind (s : string) (c : ascii) : Z :=
  match s with
  | EmptyString => -1
  | String a rest =>
      let r := rfind rest c in
      if 0 <=? r then r + 1
      else if Ascii.eqb a c then 0 else -1
  end.

Fixpoint take (n : nat) (s : string) : string :=
  match n, s with
  | S n', String a rest => String a (take n' rest)
  | _, _ => EmptyString
  end.

Fixpoint drop (n : nat) (s : string) : string :=
  match n, s with
  | S n', String _ rest => drop n' rest
  | _, _ => s
  end.

(** [s[:i]] and [s[i:]] for an index [i >= 0] (the program never slices
    with a negative index). *)
Definition slice_to (s : string) (i : Z) : string := take (Z.to_nat i) s.
Definition slice_from (s : string) (i : Z) : string := drop (Z.to_nat i) s.

(** [s[i:i+1]] for [i >= 0]: the one-character string at [i], or the empty
    string past the end. *)
Definition slice1 (s : string) (i : Z) : string :=
  take 1 (drop (Z.to_nat i) s).

(** [s.endswith(suffix)]: the last [len(suffix)] characters of [s] are
    [suffix]. *)
Definition endswith (s suffix : string) : bool :=
  (String.length suffix <=? String.length s)%nat
  && String.eqb (drop (String.length s - String.length suffix) s) suffix.

(** Truth value of a string: [bool(s)] *)
Definition truthy (s : string) : bool :=
  match s with EmptyString => false | _ => true end.

End PyStr.

(** ** [os.path] (the POSIX flavour; Qt's file dialogs return paths with
    forward slashes on every platform) *)

Module OsPath.
Import PyStr.

Definition sep : ascii := "/"%char.
Definition extsep : ascii := "."%char.

(** The [while] loop of [genericpath._splitext], which skips the leading
    dots of the file name:
<<
    while filenameIndex < dotIndex:
        if p[filenameIndex:filenameIndex+1] != extsep:
            return p[:dotIndex], p[dotIndex:]
        filenameIndex += 1
>>
    [true] when the loop returns from inside, [false] when it runs out.
    [fuel] bounds the iterations ([splitext_loop_fuel]: the length of [p] is
    always enough). *)
Fixpoint splitext_loop (fuel : nat) (p : string) (extsep : ascii)
    (filenameIndex dotIndex : Z) : bool :=
  match fuel with
  | O => false
  | S fuel' =>
      if filenameIndex <? dotIndex then
        if negb (String.eqb (slice1 p filenameIndex) (String extsep EmptyString))
        then true
        else splitext_loop fuel' p extsep (filenameIndex + 1) dotIndex
      else false
  end.

(** [genericpath._splitext(p, sep, altsep, extsep)] *)
Definition _splitext (p : string) (sep : ascii) (altsep : option ascii)
    (extsep : ascii) : string * string :=
  let sepIndex := rfind p sep in
  let sepIndex :=
    match altsep with
    | Some a => Z.max sepIndex (rfind p a)
    | None => sepIndex
    end in
  let dotIndex := rfind p extsep in
  if (sepIndex <? dotIndex)
     && splitext_loop (String.length p) p extsep (sepIndex + 1) dotIndex
  then (slice_to p dotIndex, slice_from p dotIndex)
  else (p, EmptyString).

(** [os.path.splitext(p)] *)
Definition splitext (p : string) : string * string :=
  _splitext p sep None extsep.

(** [os.path.basename(p)] *)
Definition basename (p : string) : string :=
  let i := rfind p sep + 1 in
  slice_from p i.

End OsPath.

(** ** Exceptions and results *)

(** The exceptions the program can see. The first two are raised by the
    program itself; [AttributeError] comes from the interpreter (an attribute
    read on [None]); [ExternalError] stands for any exception (a subclass of
    [Exception]) raised inside a delegated library, with its class name and
    its description. *)
Inductive exn : Type :=
| FileNotFoundError (msg : string)
| ValueError (msg : string)
| AttributeError (msg : string)
| ExternalError (cls msg : string).

(** [str(e)] *)
Definition str (e : exn) : string :=
  match e with
  | FileNotFoundError msg => msg
  | ValueError msg => msg
  | AttributeError msg => msg
  | ExternalError _ msg => msg
  end.

Inductive result (A : Type) : Type :=
| Ok (a : A)
| Raise (e : exn).
Arguments Ok {A} a.
Arguments Raise {A} e.

(** ** The document library ([docx]) *)

Inductive Paragraph : Type :=
| Heading (text : string) (level : Z)
| Para (text : string).

(** A document is its sequence of paragraphs. *)
Definition Doc : Type := list Paragraph.

(** [Document()]: the default template has no paragraph. *)
Definition Document : Doc := [].

(** The document library stores text in XML elements, and the XML library
    under it refuses a text that is not XML compatible. An ASCII character
    is accepted when it is a tab, a line feed, a carriage return, or not a
    control character (code 32 and above). *)
Definition xml_ascii_ok (c : ascii) : bool :=
  let n := N_of_ascii c in
  ((n =? 9) || (n =? 10) || (n =? 13) || (32 <=? n))%N.

(** Three bytes that encode a character XML forbids: U+FFFE, U+FFFF, or a
    surrogate (U+D800 to U+DFFF). *)
Definition xml_forbidden3 (c0 c1 c2 : ascii) : bool :=
  let next3 := (N_of_ascii c0 * 65536 + N_of_ascii c1 * 256 + N_of_ascii c2)%N in
  ((next3 =? 15712190) || (next3 =? 15712191)
   || ((15573120 <=? next3) && (next3 <=? 15581119)))%N.

(** The text holds no NUL, no other control character and no forbidden
    character. *)
Fixpoint xml_compatible (text : string) : bool :=
  match text with
  | EmptyString => true
  | String c rest =>
      (if (N_of_ascii c <? 128)%N then xml_ascii_ok c
       else
         match rest with
         | String c1 (String c2 _) => negb (xml_forbidden3 c c1 c2)
         | _ => true
         end)
      && xml_compatible rest
  end.

(** What is raised on a text that is not XML compatible. *)
Definition xml_error : exn :=
  ValueError "All strings must be XML compatible: Unicode or ASCII, no NULL bytes or control characters".

(** [doc.add_paragraph(text)] appends one paragraph at the end, or raises
    when [text] is not XML compatible. *)
Definition add_paragraph (doc : Doc) (text : string) : result Doc :=
  if xml_compatible text then Ok (doc ++ [Para text]) else Raise xml_error.

(** [doc.add_heading(text, level)] appends one heading paragraph at the end;
    it raises when [level] is not between 0 and 9, or when [text] is not XML
    compatible. *)
Definition add_heading (doc : Doc) (text : string) (level : Z) : result Doc :=
  if negb ((0 <=? level) && (level <=? 9)) then
    Raise (ValueError ("level must be in range 0-9, got "
                       +:+ NilEmpty.string_of_int (Z.to_int level)))
  else if xml_compatible text then Ok (doc ++ [Heading text level])
  else Raise xml_error.

Arguments add_paragraph : simpl never.
Arguments add_heading : simpl never.

(** ** The speech model ([faster_whisper]) *)

(** A segment carries its text and its timing bounds (in milliseconds here;
    the program never reads them). *)
Record Segment : Type := { seg_start : N; seg_end : N; text : string }.

(** [model.transcribe] returns a generator: it yields segments one at a time
    and either ends or raises after some of them. *)
Inductive SegmentStream : Type :=
| StreamEnd
| StreamYield (segment : Segment) (rest : SegmentStream)
| StreamRaise (e : exn).

(** The generator that yields the segments of a list and ends. *)
Fixpoint stream_of (segments : list Segment) : SegmentStream :=
  match segments with
  | [] => StreamEnd
  | s :: rest => StreamYield s (stream_of rest)
  end.

(** The generator that yields the segments of a list and then raises. *)
Fixpoint stream_failing (segments : list Segment) (e : exn) : SegmentStream :=
  match segments with
  | [] => StreamRaise e
  | s :: rest => StreamYield s (stream_failing rest e)
  end.

(** ** The world: file system, log of external calls, window fields *)

(** What a path holds. *)
Inductive File : Type :=
| Media (id : N)                  (* a file that was there before the run *)
| ExtractedAudio (src : string)   (* written by [write_audiofile] from [src] *)
| Docx (doc : Doc)                (* written by [doc.save] *)
| PartialFile.                    (* left behind by a write that failed *)

Inductive BoxKind : Type := Warning | Information | Critical.

(** One entry per call to an external collaborator, in call order;
    [EvCacheWrite] records a weight file that a model load writes into the
    cache directory of the speech model. *)
Inductive Event : Type :=
| EvExists (path : string)
| EvVideoFileClip (path : string)
| EvWriteAudiofile (src dst : string)
| EvWhisperModel (size : string)
| EvCacheWrite (path : string)
| EvTranscribe (path : string)
| EvSave (path : string) (doc : Doc)
| EvMessageBox (kind : BoxKind) (title message : string)
| EvProcessEvents
| EvGetOpenFileName (caption dir filter : string)
| EvGetSaveFileName (caption dir filter : string).

(** The fields of [TranscriptionApp] that the handlers read or write:
    [selected_file] and [output_file] ([None] or a string), the text of the
    three labels and the style sheet of the status label. *)
Record TranscriptionApp : Type := {
  selected_file : option string;
  output_file : option string;
  file_label : string;
  output_label : string;
  status_label : string;
  status_style : string;
}.

(** [fs] holds the files outside the cache directory of the speech model. *)
Record World : Type := {
  fs : gmap string File;
  trace : list Event;
  app : TranscriptionApp;
}.

(** How a write by a delegated library ends: the file is written, or the
    call raises, leaving nothing or a partial file at the path (no cleanup is
    attempted). *)
Inductive WriteOutcome : Type :=
| Written
| WriteFailed (e : exn) (partial : bool).

(** The behaviour of the external collaborators during one run. *)
Record Env : Type := {
  (** [VideoFileClip(path)]: raises, or gives a clip whose [audio] attribute
      is [None] ([false]) or an audio clip ([true]). *)
  env_VideoFileClip : string -> result bool;
  (** [audio.write_audiofile(dst)] for the clip opened from [src] *)
  env_write_audiofile : string -> string -> WriteOutcome;
  (** [WhisperModel(size)]: [Some e] when loading raises [e] *)
  env_WhisperModel : string -> option exn;
  (** The weight files that loading the model of that size downloads into
      the model's cache directory (none when they are there already) *)
  env_model_cache : string -> list string;
  (** [model.transcribe(path)]: raises, or returns the generator *)
  env_transcribe : string -> result SegmentStream;
  (** [doc.save(path)] *)
  env_save : string -> Doc -> WriteOutcome;
}.

(** ** The monad: state passing over [World], with exceptions *)

Definition M (A : Type) : Type := World -> result A * World.

#[global] Instance M_ret : MRet M := fun A a w => (Ok a, w).
#[global] Instance M_bind : MBind M := fun A B f m w =>
  match m w with
  | (Ok a, w') => f a w'
  | (Raise e, w') => (Raise e, w')
  end.

Definition raise {A : Type} (e : exn) : M A := fun w => (Raise e, w).

(** [try: body  except Exception as e: handler(e)] *)
Definition try_except {A : Type} (body : M A) (handler : exn -> M A) : M A :=
  fun w =>
    match body w with
    | (Ok a, w') => (Ok a, w')
    | (Raise e, w') => handler e w'
    end.

Definition log (ev : Event) : M unit :=
  fun w => (Ok tt, {| fs := fs w; trace := trace w ++ [ev]; app := app w |}).

Definition log_all (evs : list Event) : M unit :=
  fun w => (Ok tt, {| fs := fs w; trace := trace w ++ evs; app := app w |}).

(** A pure computation that may raise. *)
Definition lift_result {A : Type} (r : result A) : M A := fun w => (r, w).

Definition write_file (path : string) (f : File) : M unit :=
  fun w => (Ok tt, {| fs := <[path := f]> (fs w); trace := trace w; app := app w |}).

Definition gets {A : Type} (f : World -> A) : M A := fun w => (Ok (f w), w).

Definition get_app : M TranscriptionApp := gets app.

Definition set_app (a : TranscriptionApp) : M unit :=
  fun w => (Ok tt, {| fs := fs w; trace := trace w; app := a |}).

(** A write by a delegated library at [path], ending as [outcome] says. *)
Definition external_write (path : string) (f : File) (outcome : WriteOutcome)
  : M unit :=
  match outcome with
  | Written => write_file path f
  | WriteFailed e partial =>
      (if partial then write_file path PartialFile else mret tt);;
      raise e
  end.

(** ** Calls to the external collaborators *)

Section Program.
Import PyStr OsPath.

Variable env : Env.

(** [os.path.exists(path)] *)
Definition os_path_exists (path : string) : M bool :=
  log (EvExists path);;
  gets (fun w => bool_decide (is_Some (fs w !! path))).

(** [VideoFileClip(path)]; the value is whether the clip has an audio
    track. *)
Definition VideoFileClip (path : string) : M bool :=
  log (EvVideoFileClip path);;
  match env_VideoFileClip env path with
  | Ok has_audio => mret has_audio
  | Raise e => raise e
  end.

(** [video.audio.write_audiofile(audio_path)] for the clip [video] opened
    from [src]: reading [write_audiofile] on a missing audio track raises
    [AttributeError]. *)
Definition video_audio_write_audiofile (src : string) (video : bool)
    (audio_path : string) : M unit :=
  if video then
    log (EvWriteAudiofile src audio_path);;
    external_write audio_path (ExtractedAudio src)
      (env_write_audiofile env src audio_path)
  else
    raise (AttributeError
             "'NoneType' object has no attribute 'write_audiofile'").

(** [WhisperModel(size)]: loading downloads the weights that are not yet in
    the model's cache directory, then returns or raises. The cache directory
    is not part of [fs]: what is written there is recorded in the log. *)
Definition WhisperModel (size : string) : M unit :=
  log (EvWhisperModel size);;
  log_all (EvCacheWrite <$> env_model_cache env size);;
  match env_WhisperModel env size with
  | None => mret tt
  | Some e => raise e
  end.

(** [model.transcribe(path)]: the generator of segments (the second
    component of the returned pair is dropped by the program). *)
Definition model_transcribe (model : unit) (path : string) : M SegmentStream :=
  log (EvTranscribe path);;
  match env_transcribe env path with
  | Ok segments => mret segments
  | Raise e => raise e
  end.

(** [doc.save(path)] *)
Definition doc_save (doc : Doc) (path : string) : M unit :=
  log (EvSave path doc);;
  external_write path (Docx doc) (env_save env path doc).

(** [QMessageBox.warning], [.information], [.critical]: a modal box *)
Definition QMessageBox_warning (title message : string) : M unit :=
  log (EvMessageBox Warning title message).
Definition QMessageBox_information (title message : string) : M unit :=
  log (EvMessageBox Information title message).
Definition QMessageBox_critical (title message : string) : M unit :=
  log (EvMessageBox Critical title message).

(** [QApplication.processEvents()] *)
Definition processEvents : M unit := log EvProcessEvents.

(** The two file dialogs; [chosen] is what the user picked, the empty
    string when the dialog is cancelled. *)
Definition getOpenFileName (caption dir filter chosen : string) : M string :=
  log (EvGetOpenFileName caption dir filter);; mret chosen.
Definition getSaveFileName (caption dir filter chosen : string) : M string :=
  log (EvGetSaveFileName caption dir filter);; mret chosen.

(** Assignments to the fields of [self] *)
Definition set_selected_file (v : option string) : M unit :=
  self ← get_app;
  set_app {| selected_file := v; output_file := output_file self;
             file_label := file_label self; output_label := output_label self;
             status_label := status_label self;
             status_style := status_style self |}.
Definition set_output_file (v : option string) : M unit :=
  self ← get_app;
  set_app {| selected_file := selected_file self; output_file := v;
             file_label := file_label self; output_label := output_label self;
             status_label := status_label self;
             status_style := status_style self |}.
Definition file_label_setText (t : string) : M unit :=
  self ← get_app;
  set_app {| selected_file := selected_file self;
             output_file := output_file self;
             file_label := t; output_label := output_label self;
             status_label := status_label self;
             status_style := status_style self |}.
Definition output_label_setText (t : string) : M unit :=
  self ← get_app;
  set_app {| selected_file := selected_file self;
             output_file := output_file self;
             file_label := file_label self; output_label := t;
             status_label := status_label self;
             status_style := status_style self |}.
Definition status_label_setText (t : string) : M unit :=
  self ← get_app;
  set_app {| selected_file := selected_file self;
             output_file := output_file self;
             file_label := file_label self; output_label := output_label self;
             status_label := t;
             status_style := status_style self |}.
Definition status_label_setStyleSheet (t : string) : M unit :=
  self ← get_app;
  set_app {| selected_file := selected_file self;
             output_file := output_file self;
             file_label := file_label self; output_label := output_label self;
             status_label := status_label self;
             status_style := t |}.

(** ** The program *)

Definition supported_audio_formats : list string := [".wav"; ".mp3"; ".m4a"].
Definition supported_video_formats : list string :=
  [".mp4"; ".avi"; ".mov"; ".mkv"].

Definition validate_and_convert_file (file_path : string) : M string :=
  found ← os_path_exists file_path;
  if negb found then
    raise (FileNotFoundError "Le fichier n'existe pas.")
  else
    let file_extension := lower (snd (splitext file_path)) in
    if bool_decide (file_extension ∈ supported_audio_formats) then
      mret file_path
    else if bool_decide (file_extension ∈ supported_video_formats) then
      video ← VideoFileClip file_path;
      let audio_path := fst (splitext file_path) +:+ ".mp3" in
      video_audio_write_audiofile file_path video audio_path;;
      mret audio_path
    else
      raise (ValueError "Format de fichier non pris en charge. Formats supportés : WAV, MP3, M4A, MP4, AVI, MOV, MKV.").

(** [for segment in segments: doc.add_paragraph(segment.text)] *)
Fixpoint for_segments (segments : SegmentStream) (doc : Doc) : M Doc :=
  match segments with
  | StreamEnd => mret doc
  | StreamYield segment rest =>
      doc ← lift_result (add_paragraph doc (text segment));
      for_segments rest doc
  | StreamRaise e => raise e
  end.

Definition transcribe_audio (file_path output_path : string) : M unit :=
  model ← WhisperModel "medium";
  segments ← model_transcribe model file_path;
  let doc := Document in
  doc ← lift_result (add_heading doc "Transcription" 1);
  doc ← for_segments segments doc;
  doc_save doc output_path.

(** [TranscriptionApp.__init__]: the fields when the window opens *)
Definition TranscriptionApp_init : TranscriptionApp :=
  {| selected_file := None;
     output_file := None;
     file_label := "Aucun fichier sélectionné";
     output_label := "Aucun emplacement de fichier de sortie sélectionné";
     status_label := "";
     status_style := "" |}.

Definition select_file (chosen : string) : M unit :=
  file_path ← getOpenFileName "Sélectionner un fichier" ""
    "Audio/Video Files (*.wav *.mp3 *.m4a *.mp4 *.avi *.mov *.mkv)" chosen;
  if truthy file_path then
    set_selected_file (Some file_path);;
    file_label_setText ("Fichier sélectionné : " +:+ basename file_path)
  else mret tt.

Definition select_output_file (chosen : string) : M unit :=
  file_path ← getSaveFileName "Sélectionner l'emplacement de sortie" ""
    "Word Documents (*.docx)" chosen;
  if truthy file_path then
    let file_path :=
      if negb (endswith file_path ".docx") then file_path +:+ ".docx"
      else file_path in
    set_output_file (Some file_path);;
    output_label_setText ("Fichier de sortie : " +:+ basename file_path)
  else mret tt.

(** [not v] for a field that is [None] or a string *)
Definition not_set (v : option string) : bool :=
  match v with
  | None => true
  | Some s => negb (truthy s)
  end.

Definition transcribe : M unit :=
  self ← get_app;
  if not_set (selected_file self) then
    QMessageBox_warning "Erreur"
      "Veuillez sélectionner un fichier avant de continuer."
  else if not_set (output_file self) then
    QMessageBox_warning "Erreur"
      "Veuillez sélectionner un emplacement de fichier de sortie."
  else
    let self_selected_file := default "" (selected_file self) in
    let self_output_file := default "" (output_file self) in
    try_except
      (audio_path ← validate_and_convert_file self_selected_file;
       status_label_setText "Transcription en cours... Veuillez patienter.";;
       status_label_setStyleSheet "font-weight: bold;";;
       processEvents;;
       transcribe_audio audio_path self_output_file;;
       status_label_setText "Transcription terminée avec succès !";;
       QMessageBox_information "Succès"
         ("La transcription a été enregistrée dans " +:+ self_output_file
          +:+ "."))
      (fun e =>
         status_label_setText "Une erreur s'est produite.";;
         QMessageBox_critical "Erreur" (str e)).

End Program.

(** ** The window's event loop *)

(** The three buttons are connected to the three handlers; a click on one
    of the two selection buttons comes with what the user picks in the
    dialog. *)
Inductive Click : Type :=
| ClickSelectFile (chosen : string)
| ClickSelectOutput (chosen : string)
| ClickTranscribe.

Definition on_click (env : Env) (c : Click) : M unit :=
  match c with
  | ClickSelectFile chosen => select_file chosen
  | ClickSelectOutput chosen => select_output_file chosen
  | ClickTranscribe => transcribe env
  end.

(** The world after a sequence of clicks (no handler lets an exception
    escape, see [on_click_returns]). *)
Fixpoint after_clicks (env : Env) (clicks : list Click) (w : World) : World :=
  match clicks with
  | [] => w
  | c :: rest => after_clicks env rest (on_click env c w).2
  end.

(** ** Vocabulary of the statements *)

(** Which component issues an event. *)
Definition normalizer_event (ev : Event) : bool :=
  match ev with
  | EvExists _ | EvVideoFileClip _ | EvWriteAudiofile _ _ => true
  | _ => false
  end.

Definition transcriber_event (ev : Event) : bool :=
  match ev with
  | EvWhisperModel _ | EvCacheWrite _ | EvTranscribe _ | EvSave _ _ => true
  | _ => false
  end.

Definition save_event (ev : Event) : bool :=
  match ev with
  | EvSave _ _ => true
  | _ => false
  end.

(** The model fails with [e] on [file_path]: loading raises [e], or the
    call to [transcribe] raises [e], or the generator raises [e] after
    yielding some segments. *)
Inductive model_fails (env : Env) (file_path : string) (e : exn) : Prop :=
| load_fails :
    env_WhisperModel env "medium" = Some e ->
    model_fails env file_path e
| transcribe_call_fails :
    env_WhisperModel env "medium" = None ->
    env_transcribe env file_path = Raise e ->
    model_fails env file_path e
| generator_fails (yielded : list Segment) :
    env_WhisperModel env "medium" = None ->
    env_transcribe env file_path = Ok (stream_failing yielded e) ->
    model_fails env file_path e.

(** The paragraphs the program builds from a list of segments. *)
Definition body_paragraphs (segments : list Segment) : list Paragraph :=
  (fun s => Para (text s)) <$> segments.

(** The window [a] with the status line showing [message] in style
    [style]. *)
Definition with_status (a : TranscriptionApp) (message style : string)
  : TranscriptionApp :=
  {| selected_file := selected_file a;
     output_file := output_file a;
     file_label := file_label a;
     output_label := output_label a;
     status_label := message;
     status_style := style |}.

(** The stored output path, when there is one, ends in [".docx"]. *)
Definition output_file_docx (a : TranscriptionApp) : Prop :=
  match output_file a with
  | None => True
  | Some stored => PyStr.endswith stored ".docx" = true
  end.

(** ** Concrete environments and worlds *)

Definition seg (t : string) : Segment :=
  {| seg_start := 0; seg_end := 0; text := t |}.

(** Every delegated call succeeds; the model returns two segments. *)
Definition env_ok : Env :=
  {| env_VideoFileClip := fun _ => Ok true;
     env_write_audiofile := fun _ _ => Written;
     env_WhisperModel := fun _ => None;
     env_model_cache := fun _ => [];
     env_transcribe :=
       fun _ => Ok (stream_of [seg " Bonjour."; seg " Merci."]);
     env_save := fun _ _ => Written |}.

(** The model raises after its first segment. *)
Definition env_stream_raises : Env :=
  {| env_VideoFileClip := fun _ => Ok true;
     env_write_audiofile := fun _ _ => Written;
     env_WhisperModel := fun _ => None;
     env_model_cache := fun _ => [];
     env_transcribe :=
       fun _ => Ok (stream_failing [seg " Bonjour."]
                      (ExternalError "RuntimeError" "decoding failed"));
     env_save := fun _ _ => Written |}.

(** The video opens but has no audio track. *)
Definition env_silent : Env :=
  {| env_VideoFileClip := fun _ => Ok false;
     env_write_audiofile := fun _ _ => Written;
     env_WhisperModel := fun _ => None;
     env_model_cache := fun _ => [];
     env_transcribe :=
       fun _ => Ok (stream_of [seg " Bonjour."; seg " Merci."]);
     env_save := fun _ _ => Written |}.

(** A first run: the weights are downloaded; and the model returns a segment
    whose text holds a vertical tab (code 11). *)
Definition env_control_char : Env :=
  {| env_VideoFileClip := fun _ => Ok true;
     env_write_audiofile := fun _ _ => Written;
     env_WhisperModel := fun _ => None;
     env_model_cache :=
       fun _ => ["/home/u/.cache/huggingface/hub/model.bin"];
     env_transcribe :=
       fun _ => Ok (stream_of [seg " Bonjour.";
                               seg (" a" +:+ String "011"%char "b")]);
     env_save := fun _ _ => Written |}.

(** A first run on which everything succeeds. *)
Definition env_first_run : Env :=
  {| env_VideoFileClip := fun _ => Ok true;
     env_write_audiofile := fun _ _ => Written;
     env_WhisperModel := fun _ => None;
     env_model_cache :=
       fun _ => ["/home/u/.cache/huggingface/hub/model.bin"];
     env_transcribe :=
       fun _ => Ok (stream_of [seg " Bonjour."; seg " Merci."]);
     env_save := fun _ _ => Written |}.

(** A disk with one video and one audio file, and the window as opened. *)
Definition world0 : World :=
  {| fs := {[ "clip.mp4" := Media 1; "talk.WAV" := Media 2 ]};
     trace := [];
     app := TranscriptionApp_init |}.

(** The same disk after the user selected ["clip.mp4"] and ["out.docx"]. *)
Definition world_ready : World :=
  {| fs := fs world0;
     trace := [];
     app := {| selected_file := Some "clip.mp4";
               output_file := Some "out.docx";
               file_label := "Fichier sélectionné : clip.mp4";
               output_label := "Fichier de sortie : out.docx";
               status_label := "";
               status_style := "" |} |}.

(** The same disk after the user selected ["missing.wav"], which is not on
    disk, and ["out.docx"]. *)
Definition world_missing : World :=
  {| fs := fs world0;
     trace := [];
     app := {| selected_file := Some "missing.wav";
               output_file := Some "out.docx";
               file_label := "Fichier sélectionné : missing.wav";
               output_label := "Fichier de sortie : out.docx";
               status_label := "";
               status_style := "" |} |}.

(** ** Vocabulary of the further properties *)

(** The path the normalizer writes for a video: [os.path.splitext(file_path)[0]
    + '.mp3']. *)
Definition audio_path_of (file_path : string) : string :=
  (OsPath.splitext file_path).1 +:+ ".mp3".

(** A write into the cache directory of the speech model. *)
Definition cache_event (ev : Event) : bool :=
  match ev with
  | EvCacheWrite _ => true
  | _ => false
  end.

(** A click that stores an input path, an output path: a selection whose
    dialog was not cancelled. *)
Definition picks_input (c : Click) : bool :=
  match c with
  | ClickSelectFile chosen => PyStr.truthy chosen
  | _ => false
  end.

Definition picks_output (c : Click) : bool :=
  match c with
  | ClickSelectOutput chosen => PyStr.truthy chosen
  | _ => false
  end.

(** Each path label shows what its stored path says: the opening text while
    nothing is stored, the file name of the stored path otherwise; and a
    stored path is never the empty string. *)
Definition labels_in_sync (a : TranscriptionApp) : Prop :=
  match selected_file a with
  | None => file_label a = "Aucun fichier sélectionné"
  | Some p =>
      p <> "" /\ file_label a = "Fichier sélectionné : " +:+ OsPath.basename p
  end
  /\ match output_file a with
     | None =>
         output_label a = "Aucun emplacement de fichier de sortie sélectionné"
     | Some p =>
         p <> "" /\ output_label a = "Fichier de sortie : " +:+ OsPath.basename p
     end.

(** The status line is at rest: empty as when the window opens, or one of
    the two final messages; the success message is shown in bold. *)
Definition status_at_rest (a : TranscriptionApp) : Prop :=
  (status_label a = "" /\ status_style a = "")
  \/ status_label a = "Une erreur s'est produite."
  \/ (status_label a = "Transcription terminée avec succès !"
      /\ status_style a = "font-weight: bold;").

(** The four ways a trigger ends, with the world it leaves. *)
Inductive trigger_run (env : Env) (w : World) : World -> Prop :=
| run_warns (message : string) :
    not_set (selected_file (app w)) = true
    \/ not_set (output_file (app w)) = true ->
    trigger_run env w
      {| fs := fs w;
         trace := trace w ++ [EvMessageBox Warning "Erreur" message];
         app := app w |}
| run_normalizer_raises (selected output : string) (e : exn) (w1 : World) :
    selected_file (app w) = Some selected -> selected <> "" ->
    output_file (app w) = Some output -> output <> "" ->
    validate_and_convert_file env selected w = (Raise e, w1) ->
    trigger_run env w
      {| fs := fs w1;
         trace := trace w1 ++ [EvMessageBox Critical "Erreur" (str e)];
         app := with_status (app w) "Une erreur s'est produite."
                  (status_style (app w)) |}
| run_transcriber_raises (selected output audio_path : string) (e : exn)
    (w1 w2 : World) :
    selected_file (app w) = Some selected -> selected <> "" ->
    output_file (app w) = Some output -> output <> "" ->
    validate_and_convert_file env selected w = (Ok audio_path, w1) ->
    transcribe_audio env audio_path output
      {| fs := fs w1;
         trace := trace w1 ++ [EvProcessEvents];
         app := with_status (app w)
                  "Transcription en cours... Veuillez patienter."
                  "font-weight: bold;" |}
    = (Raise e, w2) ->
    trigger_run env w
      {| fs := fs w2;
         trace := trace w2 ++ [EvMessageBox Critical "Erreur" (str e)];
         app := with_status (app w) "Une erreur s'est produite."
                  "font-weight: bold;" |}
| run_succeeds (selected output audio_path : string) (w1 w2 : World) :
    selected_file (app w) = Some selected -> selected <> "" ->
    output_file (app w) = Some output -> output <> "" ->
    validate_and_convert_file env selected w = (Ok audio_path, w1) ->
    transcribe_audio env audio_path output
      {| fs := fs w1;
         trace := trace w1 ++ [EvProcessEvents];
         app := with_status (app w)
                  "Transcription en cours... Veuillez patienter."
                  "font-weight: bold;" |}
    = (Ok tt, w2) ->
    trigger_run env w
      {| fs := fs w2;
         trace := trace w2
                  ++ [EvMessageBox Information "Succès"
                        ("La transcription a été enregistrée dans "
                         +:+ output +:+ ".")];
         app := with_status (app w) "Transcription terminée avec succès !"
                  "font-weight: bold;" |}.

(** The window of [world0] with an audio file and an output path selected. *)
Definition world_audio_ready : World :=
  {| fs := fs world0;
     trace := [];
     app := {| selected_file := Some "talk.WAV";
               output_file := Some "out.docx";
               file_label := "Fichier sélectionné : talk.WAV";
               output_label := "Fichier de sortie : out.docx";
               status_label := "";
               status_style := "" |} |}.

(** The save raises and leaves a partial file. *)
Definition env_save_fails : Env :=
  {| env_VideoFileClip := fun _ => Ok true;
     env_write_audiofile := fun _ _ => Written;
     env_WhisperModel := fun _ => None;
     env_model_cache := fun _ => [];
     env_transcribe :=
       fun _ => Ok (stream_of [seg " Bonjour."; seg " Merci."]);
     env_save :=
       fun _ _ => WriteFailed (ExternalError "PermissionError"
                                 "[Errno 13] Permission denied") true |}.

(** A disk with a file whose whole name is an extension. *)
Definition world_hidden : World :=
  {| fs := {[ "/home/u/.mp4" := Media 4 ]};
     trace := [];
     app := TranscriptionApp_init |}.

(** * Properties of the string and path operations *)

Lemma append_nil (b : string) : "" +:+ b = b.
Proof. reflexivity. Qed.

Lemma append_cons (c : ascii) (a b : string) :
  String c a +:+ b = String c (a +:+ b).
Proof. reflexivity. Qed.

(** Unfolds [+:+] on a literal or a constructor, then simplifies. *)
Ltac str_simpl :=
  simpl; repeat (progress (rewrite ?append_nil, ?append_cons; simpl)).

Section StringFacts.
Import PyStr OsPath.

Lemma length_append (a b : string) :
  String.length (a +:+ b) = (String.length a + String.length b)%nat.
Proof.
  induction a as [|c a IH]; str_simpl; [reflexivity | now rewrite IH].
Qed.

Lemma append_empty_r (a : string) : a +:+ "" = a.
Proof. induction a as [|c a IH]; str_simpl; [reflexivity | now rewrite IH]. Qed.

Lemma append_assoc (a b c : string) : (a +:+ b) +:+ c = a +:+ (b +:+ c).
Proof.
  induction a as [|x a IH]; str_simpl; [reflexivity | now rewrite IH].
Qed.

Lemma take_drop (n : nat) (s : string) : take n s +:+ drop n s = s.
Proof.
  revert s; induction n as [|n IH]; intros [|c s]; str_simpl; try reflexivity.
  now rewrite IH.
Qed.

Lemma length_take (n : nat) (s : string) :
  String.length (take n s) = Nat.min n (String.length s).
Proof.
  revert s; induction n as [|n IH]; intros [|c s]; simpl; try reflexivity.
  now rewrite IH.
Qed.

Lemma take_append_length (a b : string) : take (String.length a) (a +:+ b) = a.
Proof.
  induction a as [|c a IH]; str_simpl; [now destruct b | now rewrite IH].
Qed.

Lemma drop_append_length (a b : string) : drop (String.length a) (a +:+ b) = b.
Proof. induction a as [|c a IH]; str_simpl; [now destruct b | exact IH]. Qed.

Lemma drop_append_lt (n : nat) (a b : string) :
  (n <= String.length a)%nat -> drop n (a +:+ b) = drop n a +:+ b.
Proof.
  revert a; induction n as [|n IH]; intros [|c a] Hn; str_simpl; simpl in Hn;
    try reflexivity; try lia.
  apply IH; lia.
Qed.

(** Reading one character below [d] does not see what lies from [d] on. *)
Lemma slice1_take (p : string) (d n : nat) :
  (n < d)%nat -> take 1 (drop n (take d p)) = take 1 (drop n p).
Proof.
  revert d n; induction p as [|c p IH]; intros d n Hn.
  - destruct d, n; reflexivity.
  - destruct d as [|d]; [lia|]. destruct n as [|n]; simpl; [reflexivity|].
    apply IH; lia.
Qed.

Lemma slice1_append (a b : string) (n : nat) :
  (n < String.length a)%nat ->
  take 1 (drop n (a +:+ b)) = take 1 (drop n a).
Proof.
  revert n; induction a as [|c a IH]; intros n Hn; simpl in Hn; [lia|].
  rewrite append_cons. destruct n as [|n]; simpl; [reflexivity|].
  apply IH; lia.
Qed.

(** *** [rfind] *)

Lemma rfind_bounds (s : string) (c : ascii) : -1 <= rfind s c < len s.
Proof.
  unfold len; induction s as [|a s IH]; simpl; [lia|].
  destruct (Z.leb_spec 0 (rfind s c)); [lia|].
  destruct (Ascii.eqb a c); lia.
Qed.

Lemma rfind_append (a b : string) (c : ascii) :
  rfind (a +:+ b) c
  = if 0 <=? rfind b c then len a + rfind b c else rfind a c.
Proof.
  unfold len; induction a as [|x a IH]; str_simpl.
  - pose proof (rfind_bounds b c).
    destruct (Z.leb_spec 0 (rfind b c)); lia.
  - rewrite IH. destruct (Z.leb_spec 0 (rfind b c)) as [Hb|Hb].
    + destruct (Z.leb_spec 0 (Z.of_nat (String.length a) + rfind b c)); lia.
    + reflexivity.
Qed.

(** The character found by [rfind] is the one looked for. *)
Lemma rfind_hit (s : string) (c : ascii) :
  0 <= rfind s c -> slice1 s (rfind s c) = String c "".
Proof.
  unfold slice1; induction s as [|a s IH]; simpl; [lia|].
  destruct (Z.leb_spec 0 (rfind s c)) as [Hr|Hr].
  - intros _. replace (Z.to_nat (rfind s c + 1)) with (S (Z.to_nat (rfind s c)))
      by lia.
    simpl. apply IH, Hr.
  - destruct (Ascii.eqb_spec a c) as [->|]; [|lia]. intros _. reflexivity.
Qed.

(** *** [lower] *)

(** The first character of a lowered string, when it is not [k], is the
    lowered first character. *)
Lemma lower_cons_inv (c x : ascii) (rest t : string) :
  lower (String c rest) = String x t -> x <> "k"%char ->
  lower_ascii c = x /\ lower rest = t.
Proof.
  intros Hlower Hx. simpl in Hlower.
  destruct rest as [|c1 [|c2 rest']]; try (now inversion Hlower).
  destruct (is_kelvin_sign c c1 c2); inversion Hlower; [congruence|].
  split; [reflexivity|]. reflexivity.
Qed.

Lemma lower_empty_inv (s : string) : lower s = "" -> s = "".
Proof.
  destruct s as [|c [|c1 [|c2 rest']]]; simpl; try discriminate; [trivial|].
  destruct (is_kelvin_sign c c1 c2); discriminate.
Qed.

(** A string whose lowercase is [".docx"] has five characters. *)
Lemma lower_docx_length (v : string) :
  lower v = ".docx" -> String.length v = 5%nat.
Proof.
  intros H.
  destruct v as [|c0 v]; [discriminate H|].
  apply lower_cons_inv in H as [_ H]; [|discriminate].
  destruct v as [|c1 v]; [discriminate H|].
  apply lower_cons_inv in H as [_ H]; [|discriminate].
  destruct v as [|c2 v]; [discriminate H|].
  apply lower_cons_inv in H as [_ H]; [|discriminate].
  destruct v as [|c3 v]; [discriminate H|].
  apply lower_cons_inv in H as [_ H]; [|discriminate].
  destruct v as [|c4 v]; [discriminate H|].
  apply lower_cons_inv in H as [_ H]; [|discriminate].
  apply lower_empty_inv in H. now subst.
Qed.

(** *** [endswith] *)

Lemma endswith_append (s suffix : string) : endswith (s +:+ suffix) suffix = true.
Proof.
  unfold endswith. rewrite length_append.
  replace (String.length s + String.length suffix - String.length suffix)%nat
    with (String.length s) by lia.
  rewrite drop_append_length, String.eqb_refl, andb_true_r.
  apply Nat.leb_le; lia.
Qed.

Lemma endswith_true (s suffix : string) :
  endswith s suffix = true -> exists base, s = base +:+ suffix.
Proof.
  unfold endswith. intros [_ H]%andb_true_iff. apply String.eqb_eq in H.
  exists (take (String.length s - String.length suffix) s).
  rewrite <- H at 2. now rewrite take_drop.
Qed.

(** A suffix of the same length that differs from [suffix] is not matched. *)
Lemma endswith_other (base v suffix : string) :
  String.length v = String.length suffix -> v <> suffix ->
  endswith (base +:+ v) suffix = false.
Proof.
  intros Hlen Hne. unfold endswith. rewrite length_append, <- Hlen.
  replace (String.length base + String.length v - String.length v)%nat
    with (String.length base) by lia.
  rewrite drop_append_length.
  destruct (String.eqb_spec v suffix); [contradiction|].
  apply andb_false_r.
Qed.

End StringFacts.

(** * Properties of [os.path.splitext] *)

Section SplitextFacts.
Import PyStr OsPath.

Lemma append_inj (a b c : string) : a +:+ b = a +:+ c -> b = c.
Proof.
  induction a as [|x a IH]; str_simpl; [trivial|].
  intros H; apply IH; congruence.
Qed.

(** The loop only needs as much fuel as there are indices to visit. *)
Lemma splitext_loop_fuel (fuel fuel' : nat) (p : string) (c : ascii)
    (i d : Z) :
  d - i <= Z.of_nat fuel -> d - i <= Z.of_nat fuel' ->
  splitext_loop fuel p c i d = splitext_loop fuel' p c i d.
Proof.
  revert fuel' i; induction fuel as [|fuel IH]; intros [|fuel'] i H1 H2; simpl;
    destruct (Z.ltb_spec i d); try lia; try reflexivity.
  destruct (negb _); [reflexivity|]. apply IH; lia.
Qed.

(** The loop only reads the characters at the indices it visits. *)
Lemma splitext_loop_ext (fuel : nat) (p q : string) (c : ascii) (i d : Z) :
  (forall j, i <= j < d -> slice1 p j = slice1 q j) ->
  splitext_loop fuel p c i d = splitext_loop fuel q c i d.
Proof.
  revert i; induction fuel as [|fuel IH]; intros i Hpq; simpl; [reflexivity|].
  destruct (Z.ltb_spec i d); [|reflexivity].
  rewrite (Hpq i) by lia. destruct (negb _); [reflexivity|].
  apply IH. intros j Hj. apply Hpq; lia.
Qed.

(** Root and extension together are the path. *)
Lemma splitext_join (p : string) : (splitext p).1 +:+ (splitext p).2 = p.
Proof.
  unfold splitext, _splitext. destruct (_ && _); simpl.
  - apply take_drop.
  - apply append_empty_r.
Qed.

(** When there is an extension, it starts at the last dot, which lies after
    the last separator and after a character of the file name that is not a
    dot. *)
Lemma splitext_nonempty (p : string) :
  (splitext p).2 <> "" ->
  rfind p sep < rfind p extsep
  /\ splitext_loop (String.length p) p extsep (rfind p sep + 1)
       (rfind p extsep) = true
  /\ splitext p = (slice_to p (rfind p extsep), slice_from p (rfind p extsep)).
Proof.
  unfold splitext, _splitext.
  destruct (Z.ltb_spec (rfind p sep) (rfind p extsep)) as [Hlt|Hge]; simpl.
  - destruct (splitext_loop _ _ _ _ _); simpl; [auto | congruence].
  - congruence.
Qed.

(** The root of a path with an extension keeps the last separator of the
    path. *)
Lemma rfind_sep_root (p : string) :
  (splitext p).2 <> "" -> rfind (splitext p).1 sep = rfind p sep.
Proof.
  intros Hext. destruct (splitext_nonempty p Hext) as (Hlt & _ & Heq).
  pose proof (splitext_join p) as Hjoin. rewrite Heq in *. simpl in *.
  pose proof (rfind_bounds p extsep) as Hd.
  pose proof (rfind_bounds p sep) as Hs.
  pose proof (rfind_append (slice_to p (rfind p extsep))
                (slice_from p (rfind p extsep)) sep) as Happ.
  rewrite Hjoin in Happ.
  assert (Hlen : len (slice_to p (rfind p extsep)) = rfind p extsep).
  { unfold len, slice_to in *. rewrite length_take. lia. }
  rewrite Hlen in Happ.
  destruct (Z.leb_spec 0 (rfind (slice_from p (rfind p extsep)) sep)); lia.
Qed.

(** Replacing the extension by [".mp3"] gives a path with the same root. *)
Lemma splitext_replace_mp3 (p : string) :
  (splitext p).2 <> "" ->
  splitext ((splitext p).1 +:+ ".mp3") = ((splitext p).1, ".mp3").
Proof.
  intros Hext. pose proof (rfind_sep_root p Hext) as Hsep.
  destruct (splitext_nonempty p Hext) as (Hlt & Hloop & Heq).
  rewrite Heq in *. simpl in *.
  set (d := rfind p extsep) in *. set (root := slice_to p d) in *.
  pose proof (rfind_bounds p extsep) as Hd. fold d in Hd.
  pose proof (rfind_bounds p sep) as Hs.
  assert (Hlen : String.length root = Z.to_nat d).
  { unfold root, slice_to, len in *. rewrite length_take. lia. }
  assert (Hdot : rfind (root +:+ ".mp3") extsep = d).
  { rewrite rfind_append. simpl. unfold len. lia. }
  assert (Hslash : rfind (root +:+ ".mp3") sep = rfind p sep).
  { rewrite rfind_append. simpl. exact Hsep. }
  unfold splitext, _splitext. rewrite Hdot, Hslash.
  destruct (Z.ltb_spec (rfind p sep) d); [|lia]. simpl.
  rewrite (splitext_loop_fuel _ (String.length p)), <- (splitext_loop_ext _ p),
    Hloop.
  - unfold slice_to, slice_from. rewrite <- Hlen.
    now rewrite take_append_length, drop_append_length.
  - intros j Hj. unfold slice1.
    rewrite slice1_append by lia.
    unfold root, slice_to. rewrite slice1_take by lia. reflexivity.
  - rewrite length_append. simpl. unfold len in *. lia.
  - unfold len in *. lia.
Qed.

(** The extensions the program accepts are not empty. *)
Lemma supported_ext_nonempty (ext : string) :
  lower ext ∈ supported_audio_formats ++ supported_video_formats -> ext <> "".
Proof.
  intros Hin ->. apply (bool_decide_pack _) in Hin. vm_compute in Hin. exact Hin.
Qed.

Lemma video_ext_not_mp3 (ext : string) :
  lower ext ∈ supported_video_formats -> ext <> ".mp3".
Proof. intros Hin ->. apply (bool_decide_pack _) in Hin. vm_compute in Hin. exact Hin. Qed.

End SplitextFacts.

(** * The input normalizer *)

(** Brings the logs of both sides to one shape. *)
Ltac trace_norm := repeat (progress (rewrite <- ?app_assoc; simpl)).

(** Unfolds the monad and the calls to the collaborators. *)
Ltac run :=
  unfold os_path_exists, VideoFileClip, video_audio_write_audiofile,
    WhisperModel, model_transcribe, doc_save, external_write, write_file,
    QMessageBox_warning, QMessageBox_information, QMessageBox_critical,
    processEvents, getOpenFileName, getSaveFileName,
    set_selected_file, set_output_file, file_label_setText,
    output_label_setText, status_label_setText, status_label_setStyleSheet,
    get_app, set_app, gets, log, log_all, lift_result, raise, try_except,
    mbind, M_bind, mret, M_ret;
  simpl.

Section Normalizer.
Import PyStr OsPath.

Variable env : Env.

Lemma exists_true (w : World) (path : string) :
  is_Some (fs w !! path) -> bool_decide (is_Some (fs w !! path)) = true.
Proof. intros H. now apply bool_decide_eq_true_2. Qed.

Lemma exists_false (w : World) (path : string) :
  fs w !! path = None -> bool_decide (is_Some (fs w !! path)) = false.
Proof.
  intros H. apply bool_decide_eq_false_2. rewrite H. apply is_Some_None.
Qed.

Lemma audio_not_video (ext : string) :
  ext ∈ supported_audio_formats -> ext ∉ supported_video_formats.
Proof.
  unfold supported_audio_formats, supported_video_formats.
  rewrite !elem_of_cons, !elem_of_nil. intros [->|[->|[->|[]]]]; intros H;
    repeat (destruct H as [H|H]; [discriminate H|]); exact H.
Qed.

(** C2. For an existing path whose extension, lowercased, is [.wav], [.mp3]
    or [.m4a], [validate_and_convert_file] returns the path itself; the file
    system is the same afterwards, and the only call made to the outside is
    the existence test (no clip is opened, nothing is written). *)
Theorem validate_audio_unchanged (w : World) (file_path : string) :
  is_Some (fs w !! file_path) ->
  lower (splitext file_path).2 ∈ supported_audio_formats ->
  validate_and_convert_file env file_path w
  = (Ok file_path,
     {| fs := fs w; trace := trace w ++ [EvExists file_path]; app := app w |}).
Proof.
  intros Hex Haudio. unfold validate_and_convert_file. run.
  rewrite (exists_true w file_path Hex). simpl.
  rewrite (bool_decide_eq_true_2 _ Haudio). reflexivity.
Qed.

(** C3. For an existing path whose extension, lowercased, is [.mp4], [.avi],
    [.mov] or [.mkv], the sibling path is the root of the input path followed
    by [.mp3]: it has the same root and the same last separator as the input
    (same directory, same file name) and extension [.mp3], and it is not the
    input path. However the extraction ends, no path other than the sibling
    is written, so the original file is as before. When the clip opens with
    an audio track and the extraction writes its file,
    [validate_and_convert_file] returns the sibling path, and the file system
    afterwards is the one before with that single path written. *)
Theorem validate_video_sibling (w : World) (file_path : string) :
  is_Some (fs w !! file_path) ->
  lower (splitext file_path).2 ∈ supported_video_formats ->
  splitext ((splitext file_path).1 +:+ ".mp3")
  = ((splitext file_path).1, ".mp3")
  /\ rfind ((splitext file_path).1 +:+ ".mp3") sep = rfind file_path sep
  /\ (splitext file_path).1 +:+ ".mp3" <> file_path
  /\ (forall other : string,
        other <> (splitext file_path).1 +:+ ".mp3" ->
        fs (validate_and_convert_file env file_path w).2 !! other
        = fs w !! other)
  /\ fs (validate_and_convert_file env file_path w).2 !! file_path
     = fs w !! file_path
  /\ (env_VideoFileClip env file_path = Ok true ->
      env_write_audiofile env file_path ((splitext file_path).1 +:+ ".mp3")
      = Written ->
      validate_and_convert_file env file_path w
      = (Ok ((splitext file_path).1 +:+ ".mp3"),
         {| fs := <[(splitext file_path).1 +:+ ".mp3"
                    := ExtractedAudio file_path]> (fs w);
            trace := trace w
                     ++ [EvExists file_path; EvVideoFileClip file_path;
                         EvWriteAudiofile file_path
                           ((splitext file_path).1 +:+ ".mp3")];
            app := app w |})).
Proof.
  intros Hex Hvideo.
  assert (Hext : (splitext file_path).2 <> "").
  { apply supported_ext_nonempty, elem_of_app. now right. }
  assert (Hne : (splitext file_path).1 +:+ ".mp3" <> file_path).
  { intros Heq. apply (video_ext_not_mp3 _ Hvideo).
    apply (append_inj (splitext file_path).1).
    rewrite splitext_join. now symmetry. }
  assert (Hframe : forall other : string,
             other <> (splitext file_path).1 +:+ ".mp3" ->
             fs (validate_and_convert_file env file_path w).2 !! other
             = fs w !! other).
  { intros other Hother. unfold validate_and_convert_file. run.
    rewrite (exists_true w file_path Hex). simpl.
    destruct (bool_decide _); [reflexivity|].
    destruct (bool_decide _); [|reflexivity].
    destruct (env_VideoFileClip env file_path) as [[|]|e]; simpl;
      try reflexivity.
    destruct (env_write_audiofile env file_path _) as [|e [|]]; simpl;
      try reflexivity; now apply lookup_insert_ne. }
  repeat split.
  - now apply splitext_replace_mp3.
  - rewrite rfind_append. simpl. now apply rfind_sep_root.
  - exact Hne.
  - exact Hframe.
  - apply Hframe. now apply not_eq_sym.
  - intros Hclip Hwrite. unfold validate_and_convert_file. run.
    rewrite (exists_true w file_path Hex). simpl.
    destruct (bool_decide_reflect
                (lower (splitext file_path).2 ∈ supported_audio_formats))
      as [Haudio|_].
    { now apply audio_not_video in Haudio. }
    rewrite (bool_decide_eq_true_2 _ Hvideo), Hclip. simpl.
    rewrite Hwrite. simpl. rewrite <- !app_assoc. reflexivity.
Qed.

(** C4. A path that is not on disk makes [validate_and_convert_file] raise
    [FileNotFoundError], whatever its extension; an existing path whose
    extension, lowercased, is in neither list makes it raise [ValueError]
    with the message that names the seven supported formats. In both cases
    the file system is the same afterwards and the only call made to the
    outside is the existence test. *)
Theorem validate_rejects (w : World) (file_path : string) :
  (fs w !! file_path = None ->
   validate_and_convert_file env file_path w
   = (Raise (FileNotFoundError "Le fichier n'existe pas."),
      {| fs := fs w; trace := trace w ++ [EvExists file_path];
         app := app w |}))
  /\ (is_Some (fs w !! file_path) ->
      lower (splitext file_path).2 ∉ supported_audio_formats ->
      lower (splitext file_path).2 ∉ supported_video_formats ->
      validate_and_convert_file env file_path w
      = (Raise (ValueError "Format de fichier non pris en charge. Formats supportés : WAV, MP3, M4A, MP4, AVI, MOV, MKV."),
         {| fs := fs w; trace := trace w ++ [EvExists file_path];
            app := app w |})).
Proof.
  split.
  - intros Hnone. unfold validate_and_convert_file. run.
    now rewrite (exists_false w file_path Hnone).
  - intros Hex Haudio Hvideo. unfold validate_and_convert_file. run.
    rewrite (exists_true w file_path Hex). simpl.
    now rewrite (bool_decide_eq_false_2 _ Haudio),
      (bool_decide_eq_false_2 _ Hvideo).
Qed.

End Normalizer.

(** * The transcriber *)

Section Transcriber.

Variable env : Env.

Lemma add_heading_title :
  add_heading Document "Transcription" 1 = Ok [Heading "Transcription" 1].
Proof. reflexivity. Qed.

Lemma add_paragraph_ok (doc : Doc) (t : string) :
  xml_compatible t = true -> add_paragraph doc t = Ok (doc ++ [Para t]).
Proof. intros H. unfold add_paragraph. now rewrite H. Qed.

Lemma add_paragraph_raises (doc : Doc) (t : string) :
  xml_compatible t = false -> add_paragraph doc t = Raise xml_error.
Proof. intros H. unfold add_paragraph. now rewrite H. Qed.

(** The cache writes of a model load are events of the transcriber, and
    none of them is a save. *)
Lemma cache_writes_transcriber (paths : list string) :
  Forall (fun ev => transcriber_event ev = true) (EvCacheWrite <$> paths).
Proof. induction paths; constructor; [reflexivity | assumption]. Qed.

Lemma cache_writes_not_save (paths : list string) :
  Forall (fun ev => save_event ev = false) (EvCacheWrite <$> paths).
Proof. induction paths; constructor; [reflexivity | assumption]. Qed.

(** Consuming a generator that ends, all of whose texts the document
    accepts, appends one paragraph per segment, in order, and touches
    nothing else. *)
Lemma for_segments_stream_of (segments : list Segment) (doc : Doc) (w : World) :
  Forall (fun s => xml_compatible (text s) = true) segments ->
  for_segments (stream_of segments) doc w
  = (Ok (doc ++ body_paragraphs segments), w).
Proof.
  intros Hall; revert doc;
    induction Hall as [|s segments Hs _ IH]; intros doc; simpl.
  - now rewrite app_nil_r.
  - run. rewrite (add_paragraph_ok doc (text s) Hs). simpl.
    rewrite IH. unfold body_paragraphs. rewrite <- app_assoc. reflexivity.
Qed.

(** Consuming a generator that raises [e] raises: [e] itself, or before
    that the error of a yielded text the document refuses. The world is
    untouched. *)
Lemma for_segments_stream_failing (segments : list Segment) (e : exn)
    (doc : Doc) (w : World) :
  exists raised : exn,
    for_segments (stream_failing segments e) doc w = (Raise raised, w)
    /\ (raised = e
        \/ (raised = xml_error
            /\ ~ Forall (fun s => xml_compatible (text s) = true) segments)).
Proof.
  revert doc; induction segments as [|s segments IH]; intros doc; simpl.
  - exists e. split; [reflexivity | now left].
  - run. destruct (xml_compatible (text s)) eqn:Hs.
    + rewrite (add_paragraph_ok doc (text s) Hs). simpl.
      destruct (IH (doc ++ [Para (text s)])) as (raised & Hrun & Hcase).
      exists raised. split; [exact Hrun|].
      destruct Hcase as [->|[-> Hbad]]; [now left|].
      right. split; [reflexivity|]. intros Hall. apply Hbad.
      now apply Forall_cons in Hall as [_ Hall].
    + rewrite (add_paragraph_raises doc (text s) Hs). simpl.
      exists xml_error. split; [reflexivity|]. right.
      split; [reflexivity|]. intros Hall.
      apply Forall_cons in Hall as [Hok _]. congruence.
Qed.

(** The loop never changes the world. *)
Lemma for_segments_world (segments : SegmentStream) (doc : Doc) (w : World) :
  (for_segments segments doc w).2 = w.
Proof.
  revert doc; induction segments as [|s rest IH|e]; intros doc; simpl;
    [reflexivity | | reflexivity].
  run. destruct (add_paragraph doc (text s)) as [doc'|e]; simpl;
    [apply IH | reflexivity].
Qed.

(** The run up to the loop, when the model loads and returns a generator. *)
Lemma transcribe_audio_loop (w : World) (file_path output_path : string)
    (segments : SegmentStream) :
  env_WhisperModel env "medium" = None ->
  env_transcribe env file_path = Ok segments ->
  transcribe_audio env file_path output_path w
  = (doc ← for_segments segments [Heading "Transcription" 1];
     doc_save env doc output_path)
      {| fs := fs w;
         trace := trace w ++ [EvWhisperModel "medium"]
                  ++ (EvCacheWrite <$> env_model_cache env "medium")
                  ++ [EvTranscribe file_path];
         app := app w |}.
Proof.
  intros Hload Hmodel. unfold transcribe_audio. run.
  rewrite Hload. simpl. rewrite Hmodel. simpl.
  rewrite <- !app_assoc. reflexivity.
Qed.

(** C1. When the model loads and returns the segments of a finite list (of
    any length, zero included) whose texts are all XML compatible,
    [transcribe_audio] ends by the call [doc.save(output_path)] on the
    document whose paragraphs are the heading ["Transcription"] of level 1
    followed by one paragraph per segment with that segment's text, in
    order, and nothing else; when that save writes its file, the
    destination holds exactly this document. *)
Theorem transcribe_audio_document (w : World) (file_path output_path : string)
    (segments : list Segment) :
  env_WhisperModel env "medium" = None ->
  env_transcribe env file_path = Ok (stream_of segments) ->
  Forall (fun s => xml_compatible (text s) = true) segments ->
  transcribe_audio env file_path output_path w
  = doc_save env (Heading "Transcription" 1 :: body_paragraphs segments)
      output_path
      {| fs := fs w;
         trace := trace w ++ [EvWhisperModel "medium"]
                  ++ (EvCacheWrite <$> env_model_cache env "medium")
                  ++ [EvTranscribe file_path];
         app := app w |}
  /\ length (Heading "Transcription" 1 :: body_paragraphs segments)
     = S (length segments)
  /\ (forall (i : nat) (s : Segment),
        segments !! i = Some s ->
        (Heading "Transcription" 1 :: body_paragraphs segments) !! S i
        = Some (Para (text s)))
  /\ (env_save env output_path
        (Heading "Transcription" 1 :: body_paragraphs segments) = Written ->
      transcribe_audio env file_path output_path w
      = (Ok tt,
         {| fs := <[output_path
                    := Docx (Heading "Transcription" 1
                             :: body_paragraphs segments)]> (fs w);
            trace := trace w ++ [EvWhisperModel "medium"]
                     ++ (EvCacheWrite <$> env_model_cache env "medium")
                     ++ [EvTranscribe file_path;
                         EvSave output_path
                           (Heading "Transcription" 1
                            :: body_paragraphs segments)];
            app := app w |})).
Proof.
  intros Hload Hmodel Htexts.
  assert (Hrun : transcribe_audio env file_path output_path w
                 = doc_save env
                     (Heading "Transcription" 1 :: body_paragraphs segments)
                     output_path
                     {| fs := fs w;
                        trace := trace w ++ [EvWhisperModel "medium"]
                                 ++ (EvCacheWrite
                                       <$> env_model_cache env "medium")
                                 ++ [EvTranscribe file_path];
                        app := app w |}).
  { rewrite (transcribe_audio_loop w file_path output_path _ Hload Hmodel).
    run. now rewrite (for_segments_stream_of segments _ _ Htexts). }
  repeat split.
  - exact Hrun.
  - simpl. unfold body_paragraphs. now rewrite length_fmap.
  - intros i s Hi. simpl. unfold body_paragraphs.
    now rewrite list_lookup_fmap, Hi.
  - intros Hsave. rewrite Hrun. run. rewrite Hsave. simpl.
    trace_norm. reflexivity.
Qed.

(** C7. When the model fails with [e] (at loading, at the call, or while
    its segments are consumed), [transcribe_audio] raises; the file system
    afterwards is the one before, so nothing is written to the destination;
    the window is untouched; and the calls made are calls to the model
    only: [doc.save] is not among them. What is raised is [e], unless a
    segment yielded before the failure has a text the document refuses:
    then the run has stopped there, with that error, before the model's
    failure is reached. *)
Theorem transcribe_audio_failure (w : World) (file_path output_path : string)
    (e : exn) :
  model_fails env file_path e ->
  exists (raised : exn) (calls : list Event),
    transcribe_audio env file_path output_path w
    = (Raise raised,
       {| fs := fs w; trace := trace w ++ calls; app := app w |})
    /\ fs (transcribe_audio env file_path output_path w).2 !! output_path
       = fs w !! output_path
    /\ Forall (fun ev => save_event ev = false) calls
    /\ (raised = e
        \/ (raised = xml_error
            /\ exists yielded : list Segment,
                 env_transcribe env file_path = Ok (stream_failing yielded e)
                 /\ ~ Forall (fun s => xml_compatible (text s) = true)
                        yielded)).
Proof.
  intros [Hload | Hload Hcall | yielded Hload Hgen].
  - exists e, ([EvWhisperModel "medium"]
               ++ (EvCacheWrite <$> env_model_cache env "medium")).
    unfold transcribe_audio. run. rewrite Hload. simpl.
    rewrite <- !app_assoc. repeat split; [|now left].
    constructor; [reflexivity | apply cache_writes_not_save].
  - exists e, ([EvWhisperModel "medium"]
               ++ (EvCacheWrite <$> env_model_cache env "medium")
               ++ [EvTranscribe file_path]).
    unfold transcribe_audio. run. rewrite Hload. simpl. rewrite Hcall. simpl.
    rewrite <- !app_assoc. repeat split; [|now left].
    constructor; [reflexivity|]. apply Forall_app.
    split; [apply cache_writes_not_save | repeat constructor].
  - rewrite (transcribe_audio_loop w file_path output_path _ Hload Hgen).
    run.
    match goal with
    | |- context [for_segments _ ?d ?w0] =>
        destruct (for_segments_stream_failing yielded e d w0)
          as (raised & Hrun & Hcase)
    end.
    exists raised, ([EvWhisperModel "medium"]
                    ++ (EvCacheWrite <$> env_model_cache env "medium")
                    ++ [EvTranscribe file_path]).
    rewrite Hrun. simpl. repeat split.
    + constructor; [reflexivity|]. apply Forall_app.
      split; [apply cache_writes_not_save | repeat constructor].
    + destruct Hcase as [->|[-> Hbad]]; [now left|]. right.
      split; [reflexivity|]. now exists yielded.
Qed.

End Transcriber.

(** * The interaction shell *)

Section Shell.
Import PyStr OsPath.

Variable env : Env.

(** ** What the two functions leave alone *)

(** The normalizer never touches the window, and only issues events of its
    own. *)
Lemma validate_frame (w : World) (file_path : string) :
  app (validate_and_convert_file env file_path w).2 = app w
  /\ exists calls : list Event,
       trace (validate_and_convert_file env file_path w).2 = trace w ++ calls
       /\ Forall (fun ev => normalizer_event ev = true) calls.
Proof.
  unfold validate_and_convert_file. run.
  destruct (bool_decide (is_Some _)); simpl.
  2: { split; [reflexivity|]. exists [EvExists file_path].
       split; [reflexivity | repeat constructor]. }
  destruct (bool_decide _); simpl.
  { split; [reflexivity|]. exists [EvExists file_path].
    split; [reflexivity | repeat constructor]. }
  destruct (bool_decide _); simpl.
  2: { split; [reflexivity|]. exists [EvExists file_path].
       split; [reflexivity | repeat constructor]. }
  destruct (env_VideoFileClip env file_path) as [[|]|e]; simpl.
  - destruct (env_write_audiofile env file_path _) as [|e [|]]; simpl;
      (split; [reflexivity|]);
      exists [EvExists file_path; EvVideoFileClip file_path;
              EvWriteAudiofile file_path ((splitext file_path).1 +:+ ".mp3")];
      rewrite <- !app_assoc; (split; [reflexivity | repeat constructor]).
  - split; [reflexivity|].
    exists [EvExists file_path; EvVideoFileClip file_path].
    rewrite <- !app_assoc. split; [reflexivity | repeat constructor].
  - split; [reflexivity|].
    exists [EvExists file_path; EvVideoFileClip file_path].
    rewrite <- !app_assoc. split; [reflexivity | repeat constructor].
Qed.

(** The transcriber never touches the window, and only issues events of its
    own. *)
Lemma transcribe_audio_frame (w : World) (file_path output_path : string) :
  app (transcribe_audio env file_path output_path w).2 = app w
  /\ exists calls : list Event,
       trace (transcribe_audio env file_path output_path w).2
       = trace w ++ calls
       /\ Forall (fun ev => transcriber_event ev = true) calls.
Proof.
  assert (Hcache : forall rest : list Event,
             Forall (fun ev => transcriber_event ev = true) rest ->
             Forall (fun ev => transcriber_event ev = true)
               ([EvWhisperModel "medium"]
                ++ (EvCacheWrite <$> env_model_cache env "medium") ++ rest)).
  { intros rest Hrest. constructor; [reflexivity|]. apply Forall_app.
    split; [apply cache_writes_transcriber | exact Hrest]. }
  unfold transcribe_audio. run.
  destruct (env_WhisperModel env "medium") as [e|]; simpl.
  { split; [reflexivity|].
    exists ([EvWhisperModel "medium"]
            ++ (EvCacheWrite <$> env_model_cache env "medium") ++ []).
    split; [|now apply Hcache].
    rewrite app_nil_r. trace_norm. reflexivity. }
  destruct (env_transcribe env file_path) as [segments|e]; simpl.
  2: { split; [reflexivity|].
       exists ([EvWhisperModel "medium"]
               ++ (EvCacheWrite <$> env_model_cache env "medium")
               ++ [EvTranscribe file_path]).
       split; [|apply Hcache; repeat constructor].
       trace_norm. reflexivity. }
  match goal with
  | |- context [for_segments ?s ?d ?w0] =>
      pose proof (for_segments_world s d w0) as Hw;
      destruct (for_segments s d w0) as [[doc|e] w1]
  end; simpl in Hw; subst; simpl.
  - destruct (env_save env output_path doc) as [|e [|]]; simpl;
      (split; [reflexivity|]);
      exists ([EvWhisperModel "medium"]
              ++ (EvCacheWrite <$> env_model_cache env "medium")
              ++ [EvTranscribe file_path; EvSave output_path doc]);
      (split; [|apply Hcache; repeat constructor]);
      trace_norm; reflexivity.
  - split; [reflexivity|].
    exists ([EvWhisperModel "medium"]
            ++ (EvCacheWrite <$> env_model_cache env "medium")
            ++ [EvTranscribe file_path]).
    split; [|apply Hcache; repeat constructor].
    trace_norm. reflexivity.
Qed.

(** ** The trigger *)

(** With a path unset, the trigger is one warning box. *)
Lemma transcribe_warns (w : World) :
  selected_file (app w) = None \/ output_file (app w) = None ->
  transcribe env w
  = (Ok tt,
     {| fs := fs w;
        trace := trace w
                 ++ [EvMessageBox Warning "Erreur"
                       (if not_set (selected_file (app w))
                        then "Veuillez sélectionner un fichier avant de continuer."
                        else "Veuillez sélectionner un emplacement de fichier de sortie.")];
        app := app w |}).
Proof.
  intros Hunset. unfold transcribe. run.
  destruct (not_set (selected_file (app w))) eqn:Hsel; [reflexivity|].
  destruct Hunset as [Hnone|Hnone].
  - rewrite Hnone in Hsel. discriminate Hsel.
  - rewrite Hnone. reflexivity.
Qed.

(** With both paths set, the trigger is the guarded sequence. *)
Lemma transcribe_both_set (w : World) (selected output : string) :
  selected_file (app w) = Some selected -> selected <> "" ->
  output_file (app w) = Some output -> output <> "" ->
  transcribe env w
  = try_except
      (audio_path ← validate_and_convert_file env selected;
       status_label_setText "Transcription en cours... Veuillez patienter.";;
       status_label_setStyleSheet "font-weight: bold;";;
       processEvents;;
       transcribe_audio env audio_path output;;
       status_label_setText "Transcription terminée avec succès !";;
       QMessageBox_information "Succès"
         ("La transcription a été enregistrée dans " +:+ output +:+ "."))
      (fun e =>
         status_label_setText "Une erreur s'est produite.";;
         QMessageBox_critical "Erreur" (str e)) w.
Proof.
  intros Hsel Hsel_ne Hout Hout_ne.
  unfold transcribe. unfold get_app, gets, mbind at 1, M_bind at 1.
  rewrite Hsel, Hout. simpl.
  destruct selected; [congruence|]. destruct output; [congruence|].
  reflexivity.
Qed.

(** C5. When the input path is unset, or the output path is unset, the
    trigger shows one warning box and returns: the file system, the two
    stored paths and the three labels (the status line among them) are as
    before, and the warning box is the only call made, so neither the
    normalizer nor the transcriber runs. *)
Theorem transcribe_unset_warns (w : World) :
  selected_file (app w) = None \/ output_file (app w) = None ->
  transcribe env w
  = (Ok tt,
     {| fs := fs w;
        trace := trace w
                 ++ [EvMessageBox Warning "Erreur"
                       (if not_set (selected_file (app w))
                        then "Veuillez sélectionner un fichier avant de continuer."
                        else "Veuillez sélectionner un emplacement de fichier de sortie.")];
        app := app w |})
  /\ Forall (fun ev => normalizer_event ev = false
                       /\ transcriber_event ev = false)
       [EvMessageBox Warning "Erreur"
          (if not_set (selected_file (app w))
           then "Veuillez sélectionner un fichier avant de continuer."
           else "Veuillez sélectionner un emplacement de fichier de sortie.")].
Proof.
  intros Hunset. split; [now apply transcribe_warns|].
  repeat constructor.
Qed.

(** C8. With both paths set, the trigger always returns, and:
    - when the normalizer raises [e], the trigger ends there: the calls it
      made are the normalizer's own followed by one error box carrying
      [str(e)], and the status line shows the error message;
    - when the normalizer returns and the transcriber raises [e], the
      trigger ends there: one error box carrying [str(e)] follows the
      transcriber's calls, and the status line shows the error message;
    - when both return, the status line shows the success message and one
      information box follows, whose text names the output path. *)
Theorem transcribe_outcome (w : World) (selected output : string) :
  selected_file (app w) = Some selected -> selected <> "" ->
  output_file (app w) = Some output -> output <> "" ->
  (forall (e : exn) (w1 : World),
     validate_and_convert_file env selected w = (Raise e, w1) ->
     transcribe env w
     = (Ok tt,
        {| fs := fs w1;
           trace := trace w1 ++ [EvMessageBox Critical "Erreur" (str e)];
           app := with_status (app w) "Une erreur s'est produite."
                    (status_style (app w)) |})
     /\ exists calls : list Event,
          trace w1 = trace w ++ calls
          /\ Forall (fun ev => normalizer_event ev = true) calls)
  /\ (forall (audio_path : string) (w1 : World),
        validate_and_convert_file env selected w = (Ok audio_path, w1) ->
        (forall (e : exn) (w2 : World),
           transcribe_audio env audio_path output
             {| fs := fs w1;
                trace := trace w1 ++ [EvProcessEvents];
                app := with_status (app w)
                         "Transcription en cours... Veuillez patienter."
                         "font-weight: bold;" |}
           = (Raise e, w2) ->
           transcribe env w
           = (Ok tt,
              {| fs := fs w2;
                 trace := trace w2
                          ++ [EvMessageBox Critical "Erreur" (str e)];
                 app := with_status (app w) "Une erreur s'est produite."
                          "font-weight: bold;" |}))
        /\ (forall w2 : World,
              transcribe_audio env audio_path output
                {| fs := fs w1;
                   trace := trace w1 ++ [EvProcessEvents];
                   app := with_status (app w)
                            "Transcription en cours... Veuillez patienter."
                            "font-weight: bold;" |}
              = (Ok tt, w2) ->
              transcribe env w
              = (Ok tt,
                 {| fs := fs w2;
                    trace := trace w2
                             ++ [EvMessageBox Information "Succès"
                                   ("La transcription a été enregistrée dans "
                                    +:+ output +:+ ".")];
                    app := with_status (app w)
                             "Transcription terminée avec succès !"
                             "font-weight: bold;" |}))).
Proof.
  intros Hsel Hsel_ne Hout Hout_ne.
  pose proof (transcribe_both_set w selected output Hsel Hsel_ne Hout Hout_ne)
    as Hstart.
  pose proof (validate_frame w selected) as [Happ1 Hcalls1].
  split.
  - intros e w1 Hval. rewrite Hval in Happ1, Hcalls1. simpl in Happ1, Hcalls1.
    split; [|exact Hcalls1].
    rewrite Hstart. run. rewrite Hval. simpl. rewrite Happ1. reflexivity.
  - intros audio_path w1 Hval. rewrite Hval in Happ1. simpl in Happ1.
    split.
    + intros e w2 Htr.
      pose proof (transcribe_audio_frame
                    {| fs := fs w1; trace := trace w1 ++ [EvProcessEvents];
                       app := with_status (app w)
                                "Transcription en cours... Veuillez patienter."
                                "font-weight: bold;" |}
                    audio_path output) as [Happ2 _].
      rewrite Htr in Happ2. simpl in Happ2.
      rewrite Hstart. run. rewrite Hval. simpl. rewrite Happ1.
      unfold with_status in Htr. rewrite Htr. simpl. rewrite Happ2.
      reflexivity.
    + intros w2 Htr.
      pose proof (transcribe_audio_frame
                    {| fs := fs w1; trace := trace w1 ++ [EvProcessEvents];
                       app := with_status (app w)
                                "Transcription en cours... Veuillez patienter."
                                "font-weight: bold;" |}
                    audio_path output) as [Happ2 _].
      rewrite Htr in Happ2. simpl in Happ2.
      rewrite Hstart. run. rewrite Hval. simpl. rewrite Happ1.
      unfold with_status in Htr. rewrite Htr. simpl. rewrite Happ2.
      reflexivity.
Qed.

(** ** The two selection dialogs *)

(** What [select_output_file] stores for a non-empty choice. *)
Lemma select_output_file_stored (w : World) (chosen : string) :
  chosen <> "" ->
  output_file (app (select_output_file chosen w).2)
  = Some (if endswith chosen ".docx" then chosen else chosen +:+ ".docx").
Proof.
  intros Hne. unfold select_output_file. run.
  destruct chosen as [|c chosen]; [congruence|]. simpl.
  now destruct (endswith (String c chosen) ".docx").
Qed.

(** A cancelled dialog changes nothing but the log. *)
Lemma select_file_cancel (w : World) :
  select_file "" w
  = (Ok tt,
     {| fs := fs w;
        trace := trace w
                 ++ [EvGetOpenFileName "Sélectionner un fichier" ""
                       "Audio/Video Files (*.wav *.mp3 *.m4a *.mp4 *.avi *.mov *.mkv)"];
        app := app w |}).
Proof. reflexivity. Qed.

Lemma select_output_file_cancel (w : World) :
  select_output_file "" w
  = (Ok tt,
     {| fs := fs w;
        trace := trace w
                 ++ [EvGetSaveFileName "Sélectionner l'emplacement de sortie"
                       "" "Word Documents (*.docx)"];
        app := app w |}).
Proof. reflexivity. Qed.

(** The trigger changes neither stored path. *)
Lemma transcribe_keeps_paths (w : World) :
  (transcribe env w).1 = Ok tt
  /\ selected_file (app (transcribe env w).2) = selected_file (app w)
  /\ output_file (app (transcribe env w).2) = output_file (app w).
Proof.
  destruct (selected_file (app w)) as [selected|] eqn:Hsel.
  2: { rewrite transcribe_warns by now left. simpl. now rewrite Hsel. }
  destruct (output_file (app w)) as [output|] eqn:Hout.
  2: { rewrite transcribe_warns by now right. simpl. now rewrite Hsel, Hout. }
  destruct (decide (selected = "")) as [->|Hsel_ne].
  { unfold transcribe. run. rewrite Hsel. simpl. now rewrite Hsel, Hout. }
  destruct (decide (output = "")) as [->|Hout_ne].
  { unfold transcribe. run. rewrite Hsel, Hout. simpl.
    destruct selected; [congruence|]. simpl. now rewrite Hsel, Hout. }
  rewrite (transcribe_both_set w selected output) by assumption. run.
  pose proof (validate_frame w selected) as [Happ1 _].
  destruct (validate_and_convert_file env selected w) as [[audio_path|e] w1];
    simpl in *.
  2: { now rewrite Happ1, Hsel, Hout. }
  match goal with
  | |- context [transcribe_audio env audio_path output ?w0] =>
      pose proof (transcribe_audio_frame w0 audio_path output) as [Happ2 _];
      destruct (transcribe_audio env audio_path output w0) as [[[]|e] w2]
  end; simpl in *; now rewrite Happ2, Happ1, Hsel, Hout.
Qed.

(** No handler lets an exception escape. *)
Lemma on_click_returns (c : Click) (w : World) : (on_click env c w).1 = Ok tt.
Proof.
  destruct c as [chosen|chosen|]; simpl.
  - unfold select_file. run. now destruct (truthy chosen).
  - unfold select_output_file. run. now destruct (truthy chosen).
  - apply transcribe_keeps_paths.
Qed.

(** Each handler keeps the stored output path ending in [".docx"]. *)
Lemma on_click_output_docx (c : Click) (w : World) :
  output_file_docx (app w) -> output_file_docx (app (on_click env c w).2).
Proof.
  intros Hinv. destruct c as [chosen|chosen|]; simpl.
  - unfold select_file. run. now destruct (truthy chosen).
  - destruct chosen as [|c chosen]; [exact Hinv|].
    unfold output_file_docx.
    rewrite select_output_file_stored by congruence.
    destruct (endswith (String c chosen) ".docx") eqn:Hends; [exact Hends|].
    apply endswith_append.
  - unfold output_file_docx.
    destruct (transcribe_keeps_paths w) as (_ & _ & ->). exact Hinv.
Qed.

Lemma after_clicks_output_docx (clicks : list Click) (w : World) :
  output_file_docx (app w) ->
  output_file_docx (app (after_clicks env clicks w)).
Proof.
  revert w; induction clicks as [|c clicks IH]; intros w Hinv; simpl;
    [exact Hinv|].
  apply IH, on_click_output_docx, Hinv.
Qed.

(** C6. For a non-empty choice in the save dialog, the stored output path
    is the choice itself when it ends in [".docx"] and the choice followed by
    [".docx"] otherwise. Choosing ["notes"] stores ["notes.docx"], and so
    does choosing ["notes.docx"]. What is stored ends in [".docx"]; and after
    any sequence of clicks on the three buttons of a freshly opened window,
    the stored output path, when there is one, ends in [".docx"]. *)
Theorem select_output_file_docx (w : World) (chosen : string) :
  chosen <> "" ->
  output_file (app (select_output_file chosen w).2)
  = Some (if endswith chosen ".docx" then chosen else chosen +:+ ".docx")
  /\ (exists stored : string,
        output_file (app (select_output_file chosen w).2) = Some stored
        /\ endswith stored ".docx" = true)
  /\ output_file (app (select_output_file "notes" w).2) = Some "notes.docx"
  /\ output_file (app (select_output_file "notes.docx" w).2)
     = Some "notes.docx"
  /\ (forall clicks : list Click,
        app w = TranscriptionApp_init ->
        output_file_docx (app (after_clicks env clicks w))).
Proof.
  intros Hne. repeat split.
  - now apply select_output_file_stored.
  - eexists. split; [now apply select_output_file_stored|].
    destruct (endswith chosen ".docx") eqn:Hends; [exact Hends|].
    apply endswith_append.
  - intros clicks Hinit. apply after_clicks_output_docx.
    rewrite Hinit. exact I.
Qed.

(** C9. The test for [".docx"] distinguishes capitals: for a choice that
    ends in a variant of [".docx"] written with at least one capital (its
    lowercase form is [".docx"], it is not [".docx"]), [".docx"] is appended,
    so the stored path carries both extensions; ["notes.DOCX"] is stored as
    ["notes.DOCX.docx"]. *)
Theorem select_output_file_case_sensitive (w : World) (base variant : string) :
  lower variant = ".docx" -> variant <> ".docx" ->
  endswith (base +:+ variant) ".docx" = false
  /\ output_file (app (select_output_file (base +:+ variant) w).2)
     = Some ((base +:+ variant) +:+ ".docx")
  /\ output_file (app (select_output_file "notes.DOCX" w).2)
     = Some "notes.DOCX.docx".
Proof.
  intros Hlower Hvariant.
  assert (Hlen : String.length variant = String.length ".docx").
  { now apply lower_docx_length. }
  assert (Hends : endswith (base +:+ variant) ".docx" = false).
  { now apply endswith_other. }
  repeat split; [exact Hends|].
  rewrite select_output_file_stored.
  - now rewrite Hends.
  - intros Hempty. apply (f_equal String.length) in Hempty.
    rewrite length_append, Hlen in Hempty. simpl in Hempty. lia.
Qed.

(** C10. Cancelling either dialog (the dialog returns the empty string)
    leaves the window as it was: both stored paths and all labels keep
    their values, and the file system is as before; the handler returns
    normally. *)
Theorem cancel_keeps_state (w : World) :
  (select_file "" w).1 = Ok tt
  /\ app (select_file "" w).2 = app w
  /\ fs (select_file "" w).2 = fs w
  /\ (select_output_file "" w).1 = Ok tt
  /\ app (select_output_file "" w).2 = app w
  /\ fs (select_output_file "" w).2 = fs w.
Proof.
  rewrite select_file_cancel, select_output_file_cancel. repeat split.
Qed.

End Shell.

(** * The theorems at concrete inputs *)

Section Witnesses.
Import PyStr OsPath.

Lemma world0_has_talk : is_Some (fs world0 !! "talk.WAV").
Proof. exists (Media 2). reflexivity. Defined.

Lemma world0_has_clip : is_Some (fs world0 !! "clip.mp4").
Proof. exists (Media 1). reflexivity. Defined.

Lemma talk_is_audio : lower (splitext "talk.WAV").2 ∈ supported_audio_formats.
Proof. apply (bool_decide_unpack _). vm_compute. exact I. Defined.

Lemma clip_is_video : lower (splitext "clip.mp4").2 ∈ supported_video_formats.
Proof. apply (bool_decide_unpack _). vm_compute. exact I. Defined.

(** ["talk.WAV"] is on disk and is audio: it is returned as it is. *)
Lemma validate_audio_unchanged_witness :
  validate_and_convert_file env_ok "talk.WAV" world0
  = (Ok "talk.WAV",
     {| fs := fs world0; trace := [EvExists "talk.WAV"];
        app := TranscriptionApp_init |}).
Proof.
  exact (validate_audio_unchanged env_ok world0 "talk.WAV"
           world0_has_talk talk_is_audio).
Defined.

(** ["clip.mp4"] is on disk and is video: ["clip.mp3"] is written beside it
    and returned. *)
Lemma validate_video_sibling_witness :
  validate_and_convert_file env_ok "clip.mp4" world0
  = (Ok "clip.mp3",
     {| fs := <["clip.mp3" := ExtractedAudio "clip.mp4"]> (fs world0);
        trace := [EvExists "clip.mp4"; EvVideoFileClip "clip.mp4";
                  EvWriteAudiofile "clip.mp4" "clip.mp3"];
        app := TranscriptionApp_init |})
  /\ splitext "clip.mp3" = ("clip", ".mp3")
  /\ "clip.mp3" <> "clip.mp4".
Proof.
  destruct (validate_video_sibling env_ok world0 "clip.mp4"
              world0_has_clip clip_is_video)
    as (Hsplit & _ & Hne & _ & _ & Hrun).
  split; [exact (Hrun eq_refl eq_refl)|]. split; [exact Hsplit | exact Hne].
Defined.

Lemma world0_lacks_missing : fs world0 !! "missing.xyz" = None.
Proof. reflexivity. Defined.

Lemma world0_has_notes : is_Some (<["notes.txt" := Media 3]> (fs world0) !! "notes.txt").
Proof. exists (Media 3). reflexivity. Defined.

Lemma txt_not_audio : lower (splitext "notes.txt").2 ∉ supported_audio_formats.
Proof. apply (bool_decide_unpack _). vm_compute. exact I. Defined.

Lemma txt_not_video : lower (splitext "notes.txt").2 ∉ supported_video_formats.
Proof. apply (bool_decide_unpack _). vm_compute. exact I. Defined.

(** A path that is not on disk is reported as not found although its
    extension is not supported either; a text file on disk is reported as
    unsupported. *)
Lemma validate_rejects_witness :
  validate_and_convert_file env_ok "missing.xyz" world0
  = (Raise (FileNotFoundError "Le fichier n'existe pas."),
     {| fs := fs world0; trace := [EvExists "missing.xyz"];
        app := TranscriptionApp_init |})
  /\ validate_and_convert_file env_ok "notes.txt"
       {| fs := <["notes.txt" := Media 3]> (fs world0); trace := [];
          app := TranscriptionApp_init |}
     = (Raise (ValueError "Format de fichier non pris en charge. Formats supportés : WAV, MP3, M4A, MP4, AVI, MOV, MKV."),
        {| fs := <["notes.txt" := Media 3]> (fs world0);
           trace := [EvExists "notes.txt"];
           app := TranscriptionApp_init |}).
Proof.
  split.
  - exact (proj1 (validate_rejects env_ok world0 "missing.xyz")
             world0_lacks_missing).
  - exact (proj2 (validate_rejects env_ok
                    {| fs := <["notes.txt" := Media 3]> (fs world0);
                       trace := []; app := TranscriptionApp_init |}
                    "notes.txt")
             world0_has_notes txt_not_audio txt_not_video).
Defined.

(** Two segments give a heading and two paragraphs, saved at the
    destination. *)
Lemma transcribe_audio_document_witness :
  transcribe_audio env_ok "talk.WAV" "out.docx" world0
  = (Ok tt,
     {| fs := <["out.docx" := Docx [Heading "Transcription" 1;
                                    Para " Bonjour."; Para " Merci."]]>
                (fs world0);
        trace := [EvWhisperModel "medium"; EvTranscribe "talk.WAV";
                  EvSave "out.docx" [Heading "Transcription" 1;
                                     Para " Bonjour."; Para " Merci."]];
        app := TranscriptionApp_init |}).
Proof.
  assert (Htexts : Forall (fun s => xml_compatible (text s) = true)
                      [seg " Bonjour."; seg " Merci."])
    by (repeat constructor).
  destruct (transcribe_audio_document env_ok world0 "talk.WAV" "out.docx"
              [seg " Bonjour."; seg " Merci."] eq_refl eq_refl Htexts)
    as (_ & _ & _ & Hsaved).
  exact (Hsaved eq_refl).
Defined.

(** The generator raises after one segment: nothing reaches the disk. *)
Lemma transcribe_audio_failure_witness :
  exists (raised : exn) (calls : list Event),
    transcribe_audio env_stream_raises "talk.WAV" "out.docx" world0
    = (Raise raised,
       {| fs := fs world0; trace := trace world0 ++ calls;
          app := app world0 |})
    /\ fs (transcribe_audio env_stream_raises "talk.WAV" "out.docx" world0).2
         !! "out.docx" = fs world0 !! "out.docx"
    /\ Forall (fun ev => save_event ev = false) calls
    /\ (raised = ExternalError "RuntimeError" "decoding failed"
        \/ (raised = xml_error
            /\ exists yielded : list Segment,
                 env_transcribe env_stream_raises "talk.WAV"
                 = Ok (stream_failing yielded
                         (ExternalError "RuntimeError" "decoding failed"))
                 /\ ~ Forall (fun s => xml_compatible (text s) = true)
                        yielded)).
Proof.
  apply (transcribe_audio_failure env_stream_raises world0 "talk.WAV"
           "out.docx" (ExternalError "RuntimeError" "decoding failed")).
  apply (generator_fails _ _ _ [seg " Bonjour."]); reflexivity.
Defined.

(** A freshly opened window has no path selected: the trigger only warns. *)
Lemma transcribe_unset_warns_witness :
  transcribe env_ok world0
  = (Ok tt,
     {| fs := fs world0;
        trace := [EvMessageBox Warning "Erreur"
                    "Veuillez sélectionner un fichier avant de continuer."];
        app := TranscriptionApp_init |}).
Proof.
  exact (proj1 (transcribe_unset_warns env_ok world0 (or_introl eq_refl))).
Defined.

(** Choosing ["out"] stores ["out.docx"]. *)
Lemma select_output_file_docx_witness :
  output_file (app (select_output_file "out" world0).2) = Some "out.docx".
Proof.
  refine (proj1 (select_output_file_docx env_ok world0 "out" _)).
  discriminate.
Defined.

(** Choosing ["notes.Docx"] stores ["notes.Docx.docx"]. *)
Lemma select_output_file_case_sensitive_witness :
  lower ".Docx" = ".docx"
  /\ endswith "notes.Docx" ".docx" = false
  /\ output_file (app (select_output_file "notes.Docx" world0).2)
     = Some "notes.Docx.docx".
Proof.
  split; [reflexivity|].
  refine (let H := select_output_file_case_sensitive world0 "notes" ".Docx"
                     eq_refl _ in conj (proj1 H) (proj1 (proj2 H))).
  discriminate.
Defined.

(** The three ways a trigger with both paths set can end: the input is not
    on disk; the model raises while its segments are read; everything
    succeeds. *)
Lemma transcribe_outcome_witness :
  transcribe env_ok world_missing
  = (Ok tt,
     {| fs := fs world0;
        trace := [EvExists "missing.wav";
                  EvMessageBox Critical "Erreur" "Le fichier n'existe pas."];
        app := with_status (app world_missing) "Une erreur s'est produite."
                 "" |})
  /\ transcribe env_stream_raises world_ready
     = (Ok tt,
        {| fs := <["clip.mp3" := ExtractedAudio "clip.mp4"]> (fs world0);
           trace := [EvExists "clip.mp4"; EvVideoFileClip "clip.mp4";
                     EvWriteAudiofile "clip.mp4" "clip.mp3";
                     EvProcessEvents;
                     EvWhisperModel "medium"; EvTranscribe "clip.mp3";
                     EvMessageBox Critical "Erreur" "decoding failed"];
           app := with_status (app world_ready) "Une erreur s'est produite."
                    "font-weight: bold;" |})
  /\ transcribe env_ok world_ready
     = (Ok tt,
        {| fs := <["out.docx" := Docx [Heading "Transcription" 1;
                                       Para " Bonjour."; Para " Merci."]]>
                   (<["clip.mp3" := ExtractedAudio "clip.mp4"]> (fs world0));
           trace := [EvExists "clip.mp4"; EvVideoFileClip "clip.mp4";
                     EvWriteAudiofile "clip.mp4" "clip.mp3";
                     EvProcessEvents;
                     EvWhisperModel "medium"; EvTranscribe "clip.mp3";
                     EvSave "out.docx" [Heading "Transcription" 1;
                                        Para " Bonjour."; Para " Merci."];
                     EvMessageBox Information "Succès"
                       "La transcription a été enregistrée dans out.docx."];
           app := with_status (app world_ready)
                    "Transcription terminée avec succès !"
                    "font-weight: bold;" |}).
Proof.
  assert (Hclip : "clip.mp4" <> "") by discriminate.
  assert (Hmiss : "missing.wav" <> "") by discriminate.
  assert (Hout : "out.docx" <> "") by discriminate.
  split; [|split].
  - exact (proj1 (proj1 (transcribe_outcome env_ok world_missing
                           "missing.wav" "out.docx"
                           eq_refl Hmiss eq_refl Hout)
                    (FileNotFoundError "Le fichier n'existe pas.")
                    {| fs := fs world0; trace := [EvExists "missing.wav"];
                       app := app world_missing |}
                    eq_refl)).
  - exact (proj1 (proj2 (transcribe_outcome env_stream_raises world_ready
                           "clip.mp4" "out.docx" eq_refl Hclip eq_refl Hout)
                    "clip.mp3"
                    {| fs := <["clip.mp3" := ExtractedAudio "clip.mp4"]>
                               (fs world0);
                       trace := [EvExists "clip.mp4";
                                 EvVideoFileClip "clip.mp4";
                                 EvWriteAudiofile "clip.mp4" "clip.mp3"];
                       app := app world_ready |}
                    eq_refl)
             (ExternalError "RuntimeError" "decoding failed")
             {| fs := <["clip.mp3" := ExtractedAudio "clip.mp4"]> (fs world0);
                trace := [EvExists "clip.mp4"; EvVideoFileClip "clip.mp4";
                          EvWriteAudiofile "clip.mp4" "clip.mp3";
                          EvProcessEvents;
                          EvWhisperModel "medium"; EvTranscribe "clip.mp3"];
                app := with_status (app world_ready)
                         "Transcription en cours... Veuillez patienter."
                         "font-weight: bold;" |}
             eq_refl).
  - exact (proj2 (proj2 (transcribe_outcome env_ok world_ready
                           "clip.mp4" "out.docx" eq_refl Hclip eq_refl Hout)
                    "clip.mp3"
                    {| fs := <["clip.mp3" := ExtractedAudio "clip.mp4"]>
                               (fs world0);
                       trace := [EvExists "clip.mp4";
                                 EvVideoFileClip "clip.mp4";
                                 EvWriteAudiofile "clip.mp4" "clip.mp3"];
                       app := app world_ready |}
                    eq_refl)
             {| fs := <["out.docx" := Docx [Heading "Transcription" 1;
                                            Para " Bonjour."; Para " Merci."]]>
                        (<["clip.mp3" := ExtractedAudio "clip.mp4"]>
                           (fs world0));
                trace := [EvExists "clip.mp4"; EvVideoFileClip "clip.mp4";
                          EvWriteAudiofile "clip.mp4" "clip.mp3";
                          EvProcessEvents;
                          EvWhisperModel "medium"; EvTranscribe "clip.mp3";
                          EvSave "out.docx" [Heading "Transcription" 1;
                                             Para " Bonjour.";
                                             Para " Merci."]];
                app := with_status (app world_ready)
                         "Transcription en cours... Veuillez patienter."
                         "font-weight: bold;" |}
             eq_refl).
Defined.

(** Without the condition on the texts, the statement of
    [transcribe_audio_document] fails: the model returns two segments, the
    second with a vertical tab in its text. The document refuses that text,
    [transcribe_audio] raises at the second paragraph, [doc.save] is never
    called and the destination stays absent. *)
Lemma transcribe_audio_control_char_counterexample :
  env_WhisperModel env_control_char "medium" = None
  /\ env_transcribe env_control_char "talk.WAV"
     = Ok (stream_of [seg " Bonjour.";
                      seg (" a" +:+ String "011"%char "b")])
  /\ transcribe_audio env_control_char "talk.WAV" "out.docx" world0
     = (Raise xml_error,
        {| fs := fs world0;
           trace := [EvWhisperModel "medium";
                     EvCacheWrite "/home/u/.cache/huggingface/hub/model.bin";
                     EvTranscribe "talk.WAV"];
           app := TranscriptionApp_init |})
  /\ fs (transcribe_audio env_control_char "talk.WAV" "out.docx" world0).2
       !! "out.docx" = None
  /\ ~ (exists w' : World,
          transcribe_audio env_control_char "talk.WAV" "out.docx" world0
          = (Ok tt, w')).
Proof.
  split; [reflexivity|]. split; [reflexivity|]. split; [reflexivity|].
  split; [reflexivity|]. intros (w' & Hrun). discriminate Hrun.
Qed.

(** Without the condition on the extraction, the statement of
    [validate_video_sibling] fails: here is a video on disk that has no audio
    track. The attribute read on the missing track raises; no path is
    returned and no sibling is written. *)
Lemma validate_video_silent_counterexample :
  is_Some (fs world0 !! "clip.mp4")
  /\ lower (splitext "clip.mp4").2 ∈ supported_video_formats
  /\ validate_and_convert_file env_silent "clip.mp4" world0
     = (Raise (AttributeError
                 "'NoneType' object has no attribute 'write_audiofile'"),
        {| fs := fs world0;
           trace := [EvExists "clip.mp4"; EvVideoFileClip "clip.mp4"];
           app := TranscriptionApp_init |})
  /\ fs (validate_and_convert_file env_silent "clip.mp4" world0).2
       !! "clip.mp3" = None
  /\ ~ (exists (audio_path : string) (w' : World),
          validate_and_convert_file env_silent "clip.mp4" world0
          = (Ok audio_path, w')).
Proof.
  split; [exact world0_has_clip|]. split; [exact clip_is_video|].
  split; [reflexivity|]. split; [reflexivity|].
  intros (audio_path & w' & Hrun). discriminate Hrun.
Qed.

(** ** Further examples *)

Example splitext_dir_dot :
  splitext "dir.d/clip.MP4" = ("dir.d/clip", ".MP4").
Proof. reflexivity. Qed.

Example splitext_hidden : splitext "/home/u/.mp4" = ("/home/u/.mp4", "").
Proof. reflexivity. Qed.

Example splitext_leading_dots : splitext "..a.b" = ("..a", ".b").
Proof. reflexivity. Qed.

Example splitext_dot_in_dir : splitext "a.b/c" = ("a.b/c", "").
Proof. reflexivity. Qed.

Example lower_samples :
  lower ".Mp4" = ".mp4" /\ lower ".mKv" = ".mkv" /\ lower "É.WAV" = "É.wav".
Proof. repeat split; reflexivity. Qed.

Example basename_notes : basename "/a/b/notes.docx" = "notes.docx".
Proof. reflexivity. Qed.

Example endswith_samples :
  endswith "notes.docx" ".docx" = true
  /\ endswith "notes.DOCX" ".docx" = false
  /\ endswith "ocx" ".docx" = false.
Proof. repeat split; reflexivity. Qed.

(** The end-to-end scenario: ["clip.mp4"] and ["out"] are picked, then the
    trigger is clicked. The output path is stored as ["out.docx"], the
    normalizer writes ["clip.mp3"], the transcriber runs on
    [("clip.mp3", "out.docx")], and the box names ["out.docx"]. *)
Example end_to_end :
  let w := after_clicks env_ok
             [ClickSelectFile "clip.mp4"; ClickSelectOutput "out";
              ClickTranscribe] world0 in
  output_file (app w) = Some "out.docx"
  /\ status_label (app w) = "Transcription terminée avec succès !"
  /\ fs w !! "out.docx"
     = Some (Docx [Heading "Transcription" 1; Para " Bonjour.";
                   Para " Merci."])
  /\ fs w !! "clip.mp3" = Some (ExtractedAudio "clip.mp4")
  /\ fs w !! "clip.mp4" = Some (Media 1)
  /\ last (trace w)
     = Some (EvMessageBox Information "Succès"
               "La transcription a été enregistrée dans out.docx.")
  /\ trace w !! 7%nat = Some (EvTranscribe "clip.mp3")
  /\ trace w !! 8%nat
     = Some (EvSave "out.docx" [Heading "Transcription" 1; Para " Bonjour.";
                               Para " Merci."]).
Proof. repeat split; reflexivity. Qed.

End Witnesses.

(** * Further properties of the normalizer *)

Section NormalizerMore.
Import PyStr OsPath.

Variable env : Env.

(** What a returned path tells about the run. *)
Lemma validate_ok_inv (w w1 : World) (file_path returned : string) :
  validate_and_convert_file env file_path w = (Ok returned, w1) ->
  is_Some (fs w !! file_path)
  /\ app w1 = app w
  /\ ((lower (splitext file_path).2 ∈ supported_audio_formats
       /\ returned = file_path /\ fs w1 = fs w)
      \/ (lower (splitext file_path).2 ∈ supported_video_formats
          /\ returned = audio_path_of file_path
          /\ fs w1
             = <[audio_path_of file_path := ExtractedAudio file_path]> (fs w))).
Proof.
  unfold validate_and_convert_file, audio_path_of. run.
  destruct (bool_decide_reflect (is_Some (fs w !! file_path))) as [Hex|_];
    simpl; [|discriminate].
  destruct (bool_decide_reflect
              (lower (splitext file_path).2 ∈ supported_audio_formats))
    as [Haudio|_].
  { intros [= <- <-]. simpl. auto 10. }
  destruct (bool_decide_reflect
              (lower (splitext file_path).2 ∈ supported_video_formats))
    as [Hvideo|_]; [|discriminate].
  destruct (env_VideoFileClip env file_path) as [[|]|e]; simpl;
    try discriminate.
  destruct (env_write_audiofile env file_path _) as [|e [|]]; simpl;
    try discriminate.
  intros [= <- <-]. simpl. auto 10.
Qed.

(** The path given to the normalizer holds the same file afterwards,
    however the run ends. *)
Lemma validate_keeps_input (w : World) (file_path : string) :
  fs (validate_and_convert_file env file_path w).2 !! file_path
  = fs w !! file_path.
Proof.
  unfold validate_and_convert_file. run.
  destruct (bool_decide (is_Some _)); simpl; [|reflexivity].
  destruct (bool_decide _); [reflexivity|].
  destruct (bool_decide_reflect
              (lower (splitext file_path).2 ∈ supported_video_formats))
    as [Hvideo|_]; [|reflexivity].
  assert (Hne : (splitext file_path).1 +:+ ".mp3" <> file_path).
  { intros Heq. apply (video_ext_not_mp3 _ Hvideo).
    apply (append_inj (splitext file_path).1).
    rewrite splitext_join. now symmetry. }
  destruct (env_VideoFileClip env file_path) as [[|]|e]; simpl;
    try reflexivity.
  destruct (env_write_audiofile env file_path _) as [|e [|]]; simpl;
    try reflexivity; now apply lookup_insert_ne.
Qed.

(** Only the sibling path can change. *)
Lemma validate_fs_frame (w : World) (file_path other : string) :
  other <> audio_path_of file_path ->
  fs (validate_and_convert_file env file_path w).2 !! other = fs w !! other.
Proof.
  intros Hother. unfold validate_and_convert_file, audio_path_of in *. run.
  destruct (bool_decide (is_Some _)); simpl; [|reflexivity].
  destruct (bool_decide _); [reflexivity|].
  destruct (bool_decide _); [|reflexivity].
  destruct (env_VideoFileClip env file_path) as [[|]|e]; simpl;
    try reflexivity.
  destruct (env_write_audiofile env file_path _) as [|e [|]]; simpl;
    try reflexivity; now apply lookup_insert_ne.
Qed.

(** An audio file on disk goes through unchanged. *)
Lemma validate_audio_run (w : World) (file_path : string) :
  is_Some (fs w !! file_path) ->
  lower (splitext file_path).2 ∈ supported_audio_formats ->
  validate_and_convert_file env file_path w
  = (Ok file_path,
     {| fs := fs w; trace := trace w ++ [EvExists file_path]; app := app w |}).
Proof.
  intros Hex Haudio. unfold validate_and_convert_file. run.
  rewrite (exists_true w file_path Hex). simpl.
  now rewrite (bool_decide_eq_true_2 _ Haudio).
Qed.

(** X1. Whenever [validate_and_convert_file] returns a path, that path is on
    disk afterwards and its extension, lowercased, is one of the three audio
    extensions: what reaches the speech model is an existing audio file,
    whether the input was audio or video. *)
Theorem validate_returns_audio_on_disk (w w1 : World)
    (file_path returned : string) :
  validate_and_convert_file env file_path w = (Ok returned, w1) ->
  is_Some (fs w1 !! returned)
  /\ lower (splitext returned).2 ∈ supported_audio_formats.
Proof.
  intros Hrun.
  destruct (validate_ok_inv w w1 file_path returned Hrun)
    as (Hex & _ & [(Haudio & -> & ->) | (Hvideo & -> & ->)]).
  - split; [exact Hex | exact Haudio].
  - split.
    + rewrite lookup_insert_eq. now eexists.
    + unfold audio_path_of. rewrite splitext_replace_mp3.
      * apply (bool_decide_unpack _). vm_compute. exact I.
      * apply supported_ext_nonempty, elem_of_app. now right.
Qed.

(** X2. The normalizer is idempotent on what it returns: given the path it
    returned, in the world it left, it returns the same path, writes
    nothing and opens no clip. *)
Theorem validate_idempotent (w w1 : World) (file_path returned : string) :
  validate_and_convert_file env file_path w = (Ok returned, w1) ->
  validate_and_convert_file env returned w1
  = (Ok returned,
     {| fs := fs w1; trace := trace w1 ++ [EvExists returned];
        app := app w1 |}).
Proof.
  intros Hrun.
  destruct (validate_ok_inv w w1 file_path returned Hrun)
    as (Hex & _ & [(Haudio & -> & Hfs) | (Hvideo & -> & Hfs)]).
  - apply validate_audio_run; [now rewrite Hfs | exact Haudio].
  - apply validate_audio_run.
    + rewrite Hfs, lookup_insert_eq. now eexists.
    + unfold audio_path_of. rewrite splitext_replace_mp3.
      * apply (bool_decide_unpack _). vm_compute. exact I.
      * apply supported_ext_nonempty, elem_of_app. now right.
Qed.

(** A file name made of one dot and a name without dot has no extension
    for [os.path.splitext]: the dot is a leading dot. *)
Lemma splitext_leading_dot (dir name : string) :
  rfind dir sep = len dir - 1 ->
  rfind name extsep = -1 -> rfind name sep = -1 ->
  splitext (dir +:+ String extsep name) = (dir +:+ String extsep name, "").
Proof.
  intros Hdir Hdot Hsep. unfold splitext, _splitext.
  assert (Hd : rfind (dir +:+ String extsep name) extsep = len dir).
  { rewrite rfind_append. simpl. rewrite Hdot. simpl. lia. }
  assert (Hs : rfind (dir +:+ String extsep name) sep = len dir - 1).
  { rewrite rfind_append. simpl. rewrite Hsep. simpl. exact Hdir. }
  rewrite Hd, Hs.
  destruct (Z.ltb_spec (len dir - 1) (len dir)); [|lia]. simpl.
  destruct (String.length (dir +:+ String extsep name)); simpl;
    [reflexivity|].
  destruct (Z.ltb_spec (len dir - 1 + 1) (len dir)); [lia | reflexivity].
Qed.

(** X18. A file whose whole name is a dot followed by letters, such as
    [/home/u/.mp4] or [.wav], is rejected as an unsupported format even
    though the name reads like a supported extension: [os.path.splitext]
    gives such a name no extension. Nothing is written and no clip is
    opened. *)
Theorem validate_rejects_dot_file (w : World) (dir name : string) :
  rfind dir sep = len dir - 1 ->
  rfind name extsep = -1 -> rfind name sep = -1 ->
  is_Some (fs w !! (dir +:+ String extsep name)) ->
  validate_and_convert_file env (dir +:+ String extsep name) w
  = (Raise (ValueError "Format de fichier non pris en charge. Formats supportés : WAV, MP3, M4A, MP4, AVI, MOV, MKV."),
     {| fs := fs w;
        trace := trace w ++ [EvExists (dir +:+ String extsep name)];
        app := app w |}).
Proof.
  intros Hdir Hdot Hsep Hex. unfold validate_and_convert_file. run.
  rewrite (exists_true w _ Hex). simpl.
  rewrite (splitext_leading_dot dir name Hdir Hdot Hsep). reflexivity.
Qed.

End NormalizerMore.

(** * Further properties of the transcriber and of the trigger *)

Section TriggerMore.
Import PyStr OsPath.

Variable env : Env.

(** Only the destination can change. *)
Lemma transcribe_audio_fs_frame (w : World)
    (file_path output_path other : string) :
  other <> output_path ->
  fs (transcribe_audio env file_path output_path w).2 !! other
  = fs w !! other.
Proof.
  intros Hother. unfold transcribe_audio. run.
  destruct (env_WhisperModel env "medium") as [e|]; simpl; [reflexivity|].
  destruct (env_transcribe env file_path) as [segments|e]; simpl;
    [|reflexivity].
  match goal with
  | |- context [for_segments ?s ?d ?w0] =>
      pose proof (for_segments_world s d w0) as Hw;
      destruct (for_segments s d w0) as [[doc|e] w1]
  end; simpl in Hw; subst; simpl; [|reflexivity].
  destruct (env_save env output_path doc) as [|e [|]]; simpl;
    try reflexivity; now apply lookup_insert_ne.
Qed.

(** What the transcriber writes into the model's cache: the weight files of
    its one model load, right after the load starts, and nothing else. *)
Lemma transcribe_audio_cache_writes (w : World)
    (file_path output_path : string) :
  exists rest : list Event,
    trace (transcribe_audio env file_path output_path w).2
    = trace w ++ [EvWhisperModel "medium"]
      ++ (EvCacheWrite <$> env_model_cache env "medium") ++ rest
    /\ Forall (fun ev => cache_event ev = false) rest.
Proof.
  unfold transcribe_audio. run.
  destruct (env_WhisperModel env "medium") as [e|]; simpl.
  { exists []. split; [|constructor]. rewrite app_nil_r. trace_norm.
    reflexivity. }
  destruct (env_transcribe env file_path) as [segments|e]; simpl.
  2: { exists [EvTranscribe file_path].
       split; [|repeat constructor]. trace_norm. reflexivity. }
  match goal with
  | |- context [for_segments ?s ?d ?w0] =>
      pose proof (for_segments_world s d w0) as Hw;
      destruct (for_segments s d w0) as [[doc|e] w1]
  end; simpl in Hw; subst; simpl.
  - destruct (env_save env output_path doc) as [|e [|]]; simpl;
      exists [EvTranscribe file_path; EvSave output_path doc];
      (split; [|repeat constructor]); trace_norm; reflexivity.
  - exists [EvTranscribe file_path].
    split; [|repeat constructor]. trace_norm. reflexivity.
Qed.

(** X3. However it ends (model failure, a text the document refuses, a
    failed save leaving a partial file, success), [transcribe_audio]
    changes no file outside the model's cache other than the destination,
    and never touches the window; in particular the audio file it is given
    is only read, unless it is itself the destination. Into the cache it
    writes the weight files of its one model load, first thing after the
    load starts, and nothing else. *)
Theorem transcribe_audio_only_writes_destination (w : World)
    (file_path output_path other : string) :
  other <> output_path ->
  fs (transcribe_audio env file_path output_path w).2 !! other
  = fs w !! other
  /\ app (transcribe_audio env file_path output_path w).2 = app w
  /\ exists rest : list Event,
       trace (transcribe_audio env file_path output_path w).2
       = trace w ++ [EvWhisperModel "medium"]
         ++ (EvCacheWrite <$> env_model_cache env "medium") ++ rest
       /\ Forall (fun ev => cache_event ev = false) rest.
Proof.
  intros Hother. split; [|split].
  - now apply transcribe_audio_fs_frame.
  - apply transcribe_audio_frame.
  - apply transcribe_audio_cache_writes.
Qed.

(** Every trigger ends in one of the four ways of [trigger_run]. *)
Lemma transcribe_trigger_run (w : World) :
  exists w' : World,
    transcribe env w = (Ok tt, w') /\ trigger_run env w w'.
Proof.
  destruct (not_set (selected_file (app w))) eqn:Hsel.
  { eexists. split; [|apply run_warns; now left].
    unfold transcribe. run. now rewrite Hsel. }
  destruct (not_set (output_file (app w))) eqn:Hout.
  { eexists. split; [|apply run_warns; now right].
    unfold transcribe. run. now rewrite Hsel, Hout. }
  destruct (selected_file (app w)) as [selected|] eqn:Hs; [|discriminate].
  destruct (output_file (app w)) as [output|] eqn:Ho; [|discriminate].
  assert (Hs_ne : selected <> "") by (intros ->; discriminate).
  assert (Ho_ne : output <> "") by (intros ->; discriminate).
  rewrite (transcribe_both_set env w selected output Hs Hs_ne Ho Ho_ne).
  pose proof (validate_frame env w selected) as [Happ1 _].
  destruct (validate_and_convert_file env selected w) as [[audio_path|e] w1]
    eqn:Hval; simpl in Happ1.
  2: { eexists. split.
       - run. rewrite Hval. simpl. rewrite Happ1. reflexivity.
       - now apply (run_normalizer_raises env w selected output e w1). }
  pose proof (transcribe_audio_frame env
                {| fs := fs w1; trace := trace w1 ++ [EvProcessEvents];
                   app := with_status (app w)
                            "Transcription en cours... Veuillez patienter."
                            "font-weight: bold;" |}
                audio_path output) as [Happ2 _].
  destruct (transcribe_audio env audio_path output _) as [[[]|e] w2] eqn:Htr;
    simpl in Happ2.
  - eexists. split.
    + run. rewrite Hval. simpl. rewrite Happ1.
      unfold with_status in Htr. rewrite Htr. simpl. rewrite Happ2.
      reflexivity.
    + now apply (run_succeeds env w selected output audio_path w1 w2).
  - eexists. split.
    + run. rewrite Hval. simpl. rewrite Happ1.
      unfold with_status in Htr. rewrite Htr. simpl. rewrite Happ2.
      reflexivity.
    + now apply (run_transcriber_raises env w selected output audio_path e
                   w1 w2).
Qed.

(** The calls of the normalizer write nothing into the model's cache. *)
Lemma normalizer_calls_no_cache (calls : list Event) :
  Forall (fun ev => normalizer_event ev = true) calls ->
  Forall (fun ev => cache_event ev = false) calls.
Proof.
  intros Hcalls. induction Hcalls as [|ev calls Hev _ IH]; constructor;
    [now destruct ev | exact IH].
Qed.

(** The log of a trigger: the cache writes in it, when there are any, are
    those of one model load. *)
Lemma transcribe_cache_writes (w : World) :
  exists before loaded after : list Event,
    trace (transcribe env w).2 = trace w ++ before ++ loaded ++ after
    /\ Forall (fun ev => cache_event ev = false) before
    /\ Forall (fun ev => cache_event ev = false) after
    /\ (loaded = []
        \/ loaded = EvCacheWrite <$> env_model_cache env "medium").
Proof.
  destruct (transcribe_trigger_run w) as (w' & -> & Hcase).
  destruct Hcase as [message _
                    | selected output e w1 Hs _ Ho _ Hval
                    | selected output audio_path e w1 w2 Hs _ Ho _ Hval Htr
                    | selected output audio_path w1 w2 Hs _ Ho _ Hval Htr];
    simpl.
  - exists [EvMessageBox Warning "Erreur" message], [], [].
    repeat split; try constructor; auto.
  - destruct (validate_frame env w selected) as (_ & calls & Htrace & Hcalls).
    rewrite Hval in Htrace. simpl in Htrace. rewrite Htrace.
    exists (calls ++ [EvMessageBox Critical "Erreur" (str e)]), [], [].
    split; [now rewrite app_nil_r, <- app_assoc|].
    split; [|split; [constructor | now left]].
    apply Forall_app. split; [now apply normalizer_calls_no_cache|].
    repeat constructor.
  - destruct (validate_frame env w selected) as (_ & calls & Htrace & Hcalls).
    rewrite Hval in Htrace. simpl in Htrace.
    destruct (transcribe_audio_cache_writes
                {| fs := fs w1; trace := trace w1 ++ [EvProcessEvents];
                   app := with_status (app w)
                            "Transcription en cours... Veuillez patienter."
                            "font-weight: bold;" |}
                audio_path output) as (rest & Htrace2 & Hrest).
    rewrite Htr in Htrace2. simpl in Htrace2. rewrite Htrace2, Htrace.
    exists (calls ++ [EvProcessEvents; EvWhisperModel "medium"]),
      (EvCacheWrite <$> env_model_cache env "medium"),
      (rest ++ [EvMessageBox Critical "Erreur" (str e)]).
    split; [trace_norm; reflexivity|].
    split; [|split; [|now right]].
    + apply Forall_app. split; [now apply normalizer_calls_no_cache|].
      repeat constructor.
    + apply Forall_app. split; [exact Hrest | repeat constructor].
  - destruct (validate_frame env w selected) as (_ & calls & Htrace & Hcalls).
    rewrite Hval in Htrace. simpl in Htrace.
    destruct (transcribe_audio_cache_writes
                {| fs := fs w1; trace := trace w1 ++ [EvProcessEvents];
                   app := with_status (app w)
                            "Transcription en cours... Veuillez patienter."
                            "font-weight: bold;" |}
                audio_path output) as (rest & Htrace2 & Hrest).
    rewrite Htr in Htrace2. simpl in Htrace2. rewrite Htrace2, Htrace.
    exists (calls ++ [EvProcessEvents; EvWhisperModel "medium"]),
      (EvCacheWrite <$> env_model_cache env "medium"),
      (rest ++ [EvMessageBox Information "Succès"
                  ("La transcription a été enregistrée dans "
                   +:+ output +:+ ".")]).
    split; [trace_norm; reflexivity|].
    split; [|split; [|now right]].
    + apply Forall_app. split; [now apply normalizer_calls_no_cache|].
      repeat constructor.
    + apply Forall_app. split; [exact Hrest | repeat constructor].
Qed.

(** X4. A trigger changes no file outside the model's cache other than the
    sibling [.mp3] of the selected input and the selected output, however
    the calls to the libraries end and however the run ends. Into the cache
    it writes nothing, or the weight files of one model load. *)
Theorem transcribe_only_writes_sibling_and_output (w : World)
    (other : string) :
  (forall selected : string,
     selected_file (app w) = Some selected ->
     other <> audio_path_of selected) ->
  (forall output : string,
     output_file (app w) = Some output -> other <> output) ->
  fs (transcribe env w).2 !! other = fs w !! other
  /\ exists before loaded after : list Event,
       trace (transcribe env w).2 = trace w ++ before ++ loaded ++ after
       /\ Forall (fun ev => cache_event ev = false) before
       /\ Forall (fun ev => cache_event ev = false) after
       /\ (loaded = []
           \/ loaded = EvCacheWrite <$> env_model_cache env "medium").
Proof.
  intros Hsibling Houtput. split; [|apply transcribe_cache_writes].
  destruct (transcribe_trigger_run w) as (w' & -> & Hcase).
  destruct Hcase as [message _
                    | selected output e w1 Hs _ Ho _ Hval
                    | selected output audio_path e w1 w2 Hs _ Ho _ Hval Htr
                    | selected output audio_path w1 w2 Hs _ Ho _ Hval Htr];
    simpl; [reflexivity| | |].
  - pose proof (validate_fs_frame env w selected other (Hsibling _ Hs)) as Hf.
    now rewrite Hval in Hf.
  - pose proof (validate_fs_frame env w selected other (Hsibling _ Hs)) as Hf.
    rewrite Hval in Hf. simpl in Hf. rewrite <- Hf.
    pose proof (transcribe_audio_fs_frame
                  {| fs := fs w1; trace := trace w1 ++ [EvProcessEvents];
                     app := with_status (app w)
                              "Transcription en cours... Veuillez patienter."
                              "font-weight: bold;" |}
                  audio_path output other (Houtput _ Ho)) as Hg.
    now rewrite Htr in Hg.
  - pose proof (validate_fs_frame env w selected other (Hsibling _ Hs)) as Hf.
    rewrite Hval in Hf. simpl in Hf. rewrite <- Hf.
    pose proof (transcribe_audio_fs_frame
                  {| fs := fs w1; trace := trace w1 ++ [EvProcessEvents];
                     app := with_status (app w)
                              "Transcription en cours... Veuillez patienter."
                              "font-weight: bold;" |}
                  audio_path output other (Houtput _ Ho)) as Hg.
    now rewrite Htr in Hg.
Qed.

(** A path that ends in [".docx"] has extension [".docx"] or none. *)
Lemma splitext_docx (base : string) :
  (splitext (base +:+ ".docx")).2 = ""
  \/ (splitext (base +:+ ".docx")).2 = ".docx".
Proof.
  unfold splitext, _splitext. rewrite (rfind_append base ".docx" extsep).
  simpl. destruct (_ && _); simpl; [right | now left].
  unfold slice_from, len.
  replace (Z.to_nat (Z.of_nat (String.length base) + 0))
    with (String.length base) by lia.
  apply drop_append_length.
Qed.

(** A path the normalizer accepts does not end in [".docx"]. *)
Lemma supported_not_docx (file_path : string) :
  lower (splitext file_path).2
    ∈ supported_audio_formats ++ supported_video_formats ->
  endswith file_path ".docx" = false.
Proof.
  intros Hin. destruct (endswith file_path ".docx") eqn:Hends; [|reflexivity].
  apply endswith_true in Hends as [base ->].
  destruct (splitext_docx base) as [Hext|Hext]; rewrite Hext in Hin;
    apply (bool_decide_pack _) in Hin; vm_compute in Hin; destruct Hin.
Qed.

(** X5. A trigger never changes the file it transcribes: with the stored
    output path ending in [".docx"] (as every stored output path does), the
    selected input file holds the same content after the trigger, whatever
    the collaborators do and however the run ends. *)
Theorem transcribe_keeps_input_file (w : World) (selected : string) :
  output_file_docx (app w) ->
  selected_file (app w) = Some selected ->
  fs (transcribe env w).2 !! selected = fs w !! selected.
Proof.
  intros Hdocx Hsel.
  destruct (transcribe_trigger_run w) as (w' & -> & Hcase).
  assert (Hmid : forall (selected' output audio_path : string) (w1 : World),
             selected_file (app w) = Some selected' ->
             output_file (app w) = Some output ->
             validate_and_convert_file env selected' w = (Ok audio_path, w1) ->
             selected <> output /\ fs w1 !! selected = fs w !! selected).
  { intros selected' output audio_path w1 Hs Ho Hval.
    rewrite Hsel in Hs. injection Hs as <-.
    pose proof (validate_keeps_input env w selected) as Hkeep.
    rewrite Hval in Hkeep. split; [|exact Hkeep].
    intros ->. unfold output_file_docx in Hdocx. rewrite Ho in Hdocx.
    destruct (validate_ok_inv env w w1 output audio_path Hval)
      as (_ & _ & [(Hin & _) | (Hin & _)]).
    - rewrite supported_not_docx in Hdocx; [discriminate|].
      apply elem_of_app. now left.
    - rewrite supported_not_docx in Hdocx; [discriminate|].
      apply elem_of_app. now right. }
  destruct Hcase as [message _
                    | selected' output e w1 Hs _ Ho _ Hval
                    | selected' output audio_path e w1 w2 Hs _ Ho _ Hval Htr
                    | selected' output audio_path w1 w2 Hs _ Ho _ Hval Htr];
    simpl; [reflexivity| | |].
  - rewrite Hsel in Hs. injection Hs as <-.
    pose proof (validate_keeps_input env w selected) as Hkeep.
    now rewrite Hval in Hkeep.
  - destruct (Hmid _ _ _ _ Hs Ho Hval) as [Hne Hkeep]. rewrite <- Hkeep.
    pose proof (transcribe_audio_fs_frame
                  {| fs := fs w1; trace := trace w1 ++ [EvProcessEvents];
                     app := with_status (app w)
                              "Transcription en cours... Veuillez patienter."
                              "font-weight: bold;" |}
                  audio_path output selected Hne) as Hg.
    now rewrite Htr in Hg.
  - destruct (Hmid _ _ _ _ Hs Ho Hval) as [Hne Hkeep]. rewrite <- Hkeep.
    pose proof (transcribe_audio_fs_frame
                  {| fs := fs w1; trace := trace w1 ++ [EvProcessEvents];
                     app := with_status (app w)
                              "Transcription en cours... Veuillez patienter."
                              "font-weight: bold;" |}
                  audio_path output selected Hne) as Hg.
    now rewrite Htr in Hg.
Qed.

(** X6. A trigger always returns (every exception raised by the normalizer
    or the transcriber is caught), and it changes neither stored path nor
    their labels: only the status line can differ. The same run can
    therefore be triggered again. *)
Theorem transcribe_returns_keeps_selection (w : World) :
  (transcribe env w).1 = Ok tt
  /\ exists message style : string,
       app (transcribe env w).2 = with_status (app w) message style.
Proof.
  destruct (transcribe_trigger_run w) as (w' & -> & Hcase).
  split; [reflexivity|].
  destruct Hcase; simpl; eauto.
  exists (status_label (app w)), (status_style (app w)).
  now destruct (app w).
Qed.

End TriggerMore.

(** * Further properties of the window *)

Section WindowMore.
Import PyStr OsPath.

Variable env : Env.

(** What a selection that is not cancelled does. *)
Lemma select_file_run (w : World) (chosen : string) :
  chosen <> "" ->
  select_file chosen w
  = (Ok tt,
     {| fs := fs w;
        trace := trace w
                 ++ [EvGetOpenFileName "Sélectionner un fichier" ""
                       "Audio/Video Files (*.wav *.mp3 *.m4a *.mp4 *.avi *.mov *.mkv)"];
        app := {| selected_file := Some chosen;
                  output_file := output_file (app w);
                  file_label := "Fichier sélectionné : " +:+ basename chosen;
                  output_label := output_label (app w);
                  status_label := status_label (app w);
                  status_style := status_style (app w) |} |}).
Proof.
  intros Hne. unfold select_file. run.
  destruct chosen; [congruence | reflexivity].
Qed.

Lemma select_output_file_run (w : World) (chosen : string) :
  chosen <> "" ->
  select_output_file chosen w
  = (Ok tt,
     {| fs := fs w;
        trace := trace w
                 ++ [EvGetSaveFileName "Sélectionner l'emplacement de sortie"
                       "" "Word Documents (*.docx)"];
        app := {| selected_file := selected_file (app w);
                  output_file :=
                    Some (if endswith chosen ".docx" then chosen
                          else chosen +:+ ".docx");
                  file_label := file_label (app w);
                  output_label :=
                    "Fichier de sortie : "
                    +:+ basename (if endswith chosen ".docx" then chosen
                                  else chosen +:+ ".docx");
                  status_label := status_label (app w);
                  status_style := status_style (app w) |} |}).
Proof.
  intros Hne. unfold select_output_file. run.
  destruct chosen as [|c chosen]; [congruence|]. simpl.
  now destruct (endswith (String c chosen) ".docx").
Qed.

Lemma append_nonempty (a b : string) : b <> "" -> a +:+ b <> "".
Proof.
  intros Hb Hab. apply (f_equal String.length) in Hab.
  rewrite length_append in Hab. destruct b; [congruence|].
  simpl in Hab. lia.
Qed.

(** The file name of a path has no separator. *)
Lemma basename_no_sep (p : string) : rfind (basename p) sep = -1.
Proof.
  unfold basename, slice_from.
  pose proof (rfind_bounds p sep) as Hp. unfold len in Hp.
  set (n := Z.to_nat (rfind p sep + 1)).
  pose proof (rfind_append (take n p) (drop n p) sep) as Happ.
  rewrite take_drop in Happ. unfold len in Happ. rewrite length_take in Happ.
  pose proof (rfind_bounds (drop n p) sep) as Hd.
  destruct (Z.leb_spec 0 (rfind (drop n p) sep)); lia.
Qed.

(** Appending a suffix without separator appends it to the file name. *)
Lemma basename_append (p suffix : string) :
  rfind suffix sep = -1 -> basename (p +:+ suffix) = basename p +:+ suffix.
Proof.
  intros Hs. unfold basename, slice_from. rewrite rfind_append, Hs. simpl.
  apply drop_append_lt. pose proof (rfind_bounds p sep). unfold len in *. lia.
Qed.

(** ** One click at a time *)

Lemma on_click_status_at_rest (c : Click) (w : World) :
  status_at_rest (app w) -> status_at_rest (app (on_click env c w).2).
Proof.
  intros Hrest. destruct c as [chosen|chosen|]; simpl.
  - destruct (decide (chosen = "")) as [->|Hne]; [exact Hrest|].
    now rewrite select_file_run.
  - destruct (decide (chosen = "")) as [->|Hne]; [exact Hrest|].
    now rewrite select_output_file_run.
  - destruct (transcribe_trigger_run env w) as (w' & -> & Hcase).
    destruct Hcase; simpl; unfold status_at_rest; simpl; auto.
Qed.

Lemma on_click_labels_in_sync (c : Click) (w : World) :
  labels_in_sync (app w) -> labels_in_sync (app (on_click env c w).2).
Proof.
  intros [Hin Hout]. destruct c as [chosen|chosen|]; simpl.
  - destruct (decide (chosen = "")) as [->|Hne]; [now split|].
    rewrite select_file_run by exact Hne. split; simpl; [now split | exact Hout].
  - destruct (decide (chosen = "")) as [->|Hne]; [now split|].
    rewrite select_output_file_run by exact Hne.
    split; simpl; [exact Hin|]. split; [|reflexivity].
    destruct (endswith chosen ".docx"); [exact Hne|].
    now apply append_nonempty.
  - destruct (transcribe_trigger_run env w) as (w' & -> & Hcase).
    destruct Hcase; simpl; now split.
Qed.

Lemma on_click_keeps_selected (c : Click) (w : World) :
  (is_Some (selected_file (app w)) ->
   is_Some (selected_file (app (on_click env c w).2)))
  /\ (is_Some (output_file (app w)) ->
      is_Some (output_file (app (on_click env c w).2))).
Proof.
  destruct c as [chosen|chosen|]; simpl.
  - destruct (decide (chosen = "")) as [->|Hne]; [now split|].
    rewrite select_file_run by exact Hne. simpl. split; eauto.
  - destruct (decide (chosen = "")) as [->|Hne]; [now split|].
    rewrite select_output_file_run by exact Hne. simpl. split; eauto.
  - destruct (transcribe_trigger_run env w) as (w' & -> & Hcase).
    destruct Hcase; simpl; now split.
Qed.

(** ** Any sequence of clicks *)

(** X7. After any sequence of clicks on a freshly opened window the status
    line is at rest: empty, or the error message, or the success message in
    bold. The in-progress message is never what a handler leaves behind. *)
Theorem status_never_left_in_progress (clicks : list Click)
    (disk : gmap string File) (log0 : list Event) :
  status_at_rest
    (app (after_clicks env clicks
            {| fs := disk; trace := log0; app := TranscriptionApp_init |}))
  /\ status_label
       (app (after_clicks env clicks
               {| fs := disk; trace := log0; app := TranscriptionApp_init |}))
     <> "Transcription en cours... Veuillez patienter.".
Proof.
  assert (Hinv : forall w, status_at_rest (app w) ->
                           status_at_rest (app (after_clicks env clicks w))).
  { induction clicks as [|c rest IH]; intros w Hw; simpl; [exact Hw|].
    apply IH, on_click_status_at_rest, Hw. }
  assert (Hrest : status_at_rest
                    (app (after_clicks env clicks
                            {| fs := disk; trace := log0;
                               app := TranscriptionApp_init |}))).
  { apply Hinv. left. now split. }
  split; [exact Hrest|].
  destruct Hrest as [[-> _] | [-> | [-> _]]]; discriminate.
Qed.

(** X8. After any sequence of clicks on a freshly opened window, each path
    label agrees with its stored path: it shows the opening text while no
    path is stored, and otherwise the file name ([os.path.basename]) of the
    stored path; and a stored path is never the empty string, so testing a
    stored path for truth is testing it against [None]. *)
Theorem labels_follow_stored_paths (clicks : list Click)
    (disk : gmap string File) (log0 : list Event) :
  labels_in_sync
    (app (after_clicks env clicks
            {| fs := disk; trace := log0; app := TranscriptionApp_init |})).
Proof.
  assert (Hinv : forall w, labels_in_sync (app w) ->
                           labels_in_sync (app (after_clicks env clicks w))).
  { induction clicks as [|c rest IH]; intros w Hw; simpl; [exact Hw|].
    apply IH, on_click_labels_in_sync, Hw. }
  apply Hinv. now split.
Qed.

(** X9. No handler clears a stored path: once an input path (an output
    path) is stored, one is stored after any further clicks, cancelled
    dialogs and failed runs included. *)
Theorem selection_never_cleared (clicks : list Click) (w : World) :
  (is_Some (selected_file (app w)) ->
   is_Some (selected_file (app (after_clicks env clicks w))))
  /\ (is_Some (output_file (app w)) ->
      is_Some (output_file (app (after_clicks env clicks w)))).
Proof.
  revert w; induction clicks as [|c rest IH]; intros w; simpl; [now split|].
  destruct (IH (on_click env c w).2) as [IHin IHout].
  destruct (on_click_keeps_selected c w) as [Hin Hout].
  split; auto.
Qed.

(** ** Before both paths are selected *)

Lemma on_click_quiet_without_input (c : Click) (w : World) :
  selected_file (app w) = None -> picks_input c = false ->
  selected_file (app (on_click env c w).2) = None
  /\ fs (on_click env c w).2 = fs w
  /\ exists ev : Event,
       trace (on_click env c w).2 = trace w ++ [ev]
       /\ normalizer_event ev = false /\ transcriber_event ev = false.
Proof.
  intros Hnone Hpick. destruct c as [chosen|chosen|]; simpl in *.
  - destruct chosen; [|discriminate Hpick].
    rewrite select_file_cancel. simpl. eauto 10.
  - destruct (decide (chosen = "")) as [->|Hne].
    + rewrite select_output_file_cancel. simpl. eauto 10.
    + rewrite select_output_file_run by exact Hne. simpl. eauto 10.
  - rewrite transcribe_warns by now left. simpl. eauto 10.
Qed.

Lemma on_click_quiet_without_output (c : Click) (w : World) :
  output_file (app w) = None -> picks_output c = false ->
  output_file (app (on_click env c w).2) = None
  /\ fs (on_click env c w).2 = fs w
  /\ exists ev : Event,
       trace (on_click env c w).2 = trace w ++ [ev]
       /\ normalizer_event ev = false /\ transcriber_event ev = false.
Proof.
  intros Hnone Hpick. destruct c as [chosen|chosen|]; simpl in *.
  - destruct (decide (chosen = "")) as [->|Hne].
    + rewrite select_file_cancel. simpl. eauto 10.
    + rewrite select_file_run by exact Hne. simpl. eauto 10.
  - destruct chosen; [|discriminate Hpick].
    rewrite select_output_file_cancel. simpl. eauto 10.
  - rewrite transcribe_warns by now right. simpl. eauto 10.
Qed.

Lemma clicks_quiet_without_input (clicks : list Click) (w : World) :
  selected_file (app w) = None ->
  Forall (fun c => picks_input c = false) clicks ->
  fs (after_clicks env clicks w) = fs w
  /\ exists calls : list Event,
       trace (after_clicks env clicks w) = trace w ++ calls
       /\ Forall (fun ev => normalizer_event ev = false
                            /\ transcriber_event ev = false) calls.
Proof.
  revert w; induction clicks as [|c rest IH]; intros w Hnone Hall; simpl.
  - split; [reflexivity|]. exists []. now rewrite app_nil_r.
  - apply Forall_cons in Hall as [Hc Hrest].
    destruct (on_click_quiet_without_input c w Hnone Hc)
      as (Hnone' & Hfs & ev & Htrace & Hev).
    destruct (IH _ Hnone' Hrest) as (Hfs' & calls & Htrace' & Hcalls).
    split; [congruence|]. exists (ev :: calls).
    rewrite Htrace', Htrace, <- app_assoc. split; [reflexivity|].
    now constructor.
Qed.

Lemma clicks_quiet_without_output (clicks : list Click) (w : World) :
  output_file (app w) = None ->
  Forall (fun c => picks_output c = false) clicks ->
  fs (after_clicks env clicks w) = fs w
  /\ exists calls : list Event,
       trace (after_clicks env clicks w) = trace w ++ calls
       /\ Forall (fun ev => normalizer_event ev = false
                            /\ transcriber_event ev = false) calls.
Proof.
  revert w; induction clicks as [|c rest IH]; intros w Hnone Hall; simpl.
  - split; [reflexivity|]. exists []. now rewrite app_nil_r.
  - apply Forall_cons in Hall as [Hc Hrest].
    destruct (on_click_quiet_without_output c w Hnone Hc)
      as (Hnone' & Hfs & ev & Htrace & Hev).
    destruct (IH _ Hnone' Hrest) as (Hfs' & calls & Htrace' & Hcalls).
    split; [congruence|]. exists (ev :: calls).
    rewrite Htrace', Htrace, <- app_assoc. split; [reflexivity|].
    now constructor.
Qed.

(** X10. On a freshly opened window, as long as no input path has been
    picked, or no output path has been picked, no sequence of clicks writes
    anything or reaches the normalizer or the transcriber, however often
    the trigger is clicked: the file system stays as it was and the calls
    made are dialogs and warning boxes only. *)
Theorem nothing_runs_before_both_selected (clicks : list Click)
    (disk : gmap string File) (log0 : list Event) :
  Forall (fun c => picks_input c = false) clicks
  \/ Forall (fun c => picks_output c = false) clicks ->
  fs (after_clicks env clicks
        {| fs := disk; trace := log0; app := TranscriptionApp_init |})
  = disk
  /\ exists calls : list Event,
       trace (after_clicks env clicks
                {| fs := disk; trace := log0; app := TranscriptionApp_init |})
       = log0 ++ calls
       /\ Forall (fun ev => normalizer_event ev = false
                            /\ transcriber_event ev = false) calls.
Proof.
  intros [Hall|Hall].
  - now apply (clicks_quiet_without_input clicks
                 {| fs := disk; trace := log0;
                    app := TranscriptionApp_init |}).
  - now apply (clicks_quiet_without_output clicks
                 {| fs := disk; trace := log0;
                    app := TranscriptionApp_init |}).
Qed.

(** ** Selecting again *)

(** X11. The last choice wins: after two selections in a row the window is
    as if only the second had been made, for the input dialog and for the
    output dialog; nothing of the earlier choice remains. *)
Theorem last_choice_wins (w : World) (first second : string) :
  second <> "" ->
  app (select_file second (select_file first w).2).2
  = app (select_file second w).2
  /\ app (select_output_file second (select_output_file first w).2).2
     = app (select_output_file second w).2.
Proof.
  intros Hne. split.
  - destruct (decide (first = "")) as [->|Hfirst].
    + rewrite select_file_cancel. now rewrite !select_file_run.
    + now rewrite !select_file_run.
  - destruct (decide (first = "")) as [->|Hfirst].
    + rewrite select_output_file_cancel. now rewrite !select_output_file_run.
    + now rewrite !select_output_file_run.
Qed.

(** X12. Choosing in the save dialog the path that is already stored
    changes nothing in the window: the added extension is not added twice. *)
Theorem reselect_stored_output (w : World) (chosen stored : string) :
  chosen <> "" ->
  output_file (app (select_output_file chosen w).2) = Some stored ->
  app (select_output_file stored (select_output_file chosen w).2).2
  = app (select_output_file chosen w).2.
Proof.
  intros Hne. rewrite select_output_file_run by exact Hne. simpl.
  intros [= <-].
  assert (Hends : endswith (if endswith chosen ".docx" then chosen
                            else chosen +:+ ".docx") ".docx" = true).
  { destruct (endswith chosen ".docx") eqn:H; [exact H|].
    apply endswith_append. }
  rewrite select_output_file_run.
  - simpl. now rewrite Hends.
  - destruct (endswith chosen ".docx"); [exact Hne|].
    now apply append_nonempty.
Qed.

(** X13. After a choice in the save dialog, the output label shows a file
    name that ends in [".docx"] and holds no directory part, whatever the
    directory of the chosen path. *)
Theorem output_label_names_docx (w : World) (chosen : string) :
  chosen <> "" ->
  exists name : string,
    output_label (app (select_output_file chosen w).2)
    = "Fichier de sortie : " +:+ name
    /\ endswith name ".docx" = true
    /\ rfind name sep = -1.
Proof.
  intros Hne. rewrite select_output_file_run by exact Hne. simpl.
  eexists. split; [reflexivity|]. split; [|apply basename_no_sep].
  assert (Hbase : exists base : string,
             (if endswith chosen ".docx" then chosen else chosen +:+ ".docx")
             = base +:+ ".docx").
  { destruct (endswith chosen ".docx") eqn:H.
    - now apply endswith_true.
    - now exists chosen. }
  destruct Hbase as [base ->].
  rewrite basename_append by reflexivity. apply endswith_append.
Qed.

End WindowMore.

(** * Whole runs of the trigger *)

Section TriggerRuns.
Import PyStr OsPath.

Variable env : Env.

Lemma validate_not_found_run (w : World) (file_path : string) :
  fs w !! file_path = None ->
  validate_and_convert_file env file_path w
  = (Raise (FileNotFoundError "Le fichier n'existe pas."),
     {| fs := fs w; trace := trace w ++ [EvExists file_path];
        app := app w |}).
Proof.
  intros Hnone. unfold validate_and_convert_file. run.
  now rewrite (exists_false w file_path Hnone).
Qed.

Lemma validate_unsupported_run (w : World) (file_path : string) :
  is_Some (fs w !! file_path) ->
  lower (splitext file_path).2 ∉ supported_audio_formats ->
  lower (splitext file_path).2 ∉ supported_video_formats ->
  validate_and_convert_file env file_path w
  = (Raise (ValueError "Format de fichier non pris en charge. Formats supportés : WAV, MP3, M4A, MP4, AVI, MOV, MKV."),
     {| fs := fs w; trace := trace w ++ [EvExists file_path];
        app := app w |}).
Proof.
  intros Hex Haudio Hvideo. unfold validate_and_convert_file. run.
  rewrite (exists_true w file_path Hex). simpl.
  now rewrite (bool_decide_eq_false_2 _ Haudio),
    (bool_decide_eq_false_2 _ Hvideo).
Qed.

Lemma validate_video_run (w : World) (file_path : string) :
  is_Some (fs w !! file_path) ->
  lower (splitext file_path).2 ∈ supported_video_formats ->
  env_VideoFileClip env file_path = Ok true ->
  env_write_audiofile env file_path (audio_path_of file_path) = Written ->
  validate_and_convert_file env file_path w
  = (Ok (audio_path_of file_path),
     {| fs := <[audio_path_of file_path := ExtractedAudio file_path]> (fs w);
        trace := trace w
                 ++ [EvExists file_path; EvVideoFileClip file_path;
                     EvWriteAudiofile file_path (audio_path_of file_path)];
        app := app w |}).
Proof.
  unfold audio_path_of. intros Hex Hvideo Hclip Hwrite.
  unfold validate_and_convert_file. run.
  rewrite (exists_true w file_path Hex). simpl.
  destruct (bool_decide_reflect
              (lower (splitext file_path).2 ∈ supported_audio_formats))
    as [Haudio|_].
  { now apply audio_not_video in Haudio. }
  rewrite (bool_decide_eq_true_2 _ Hvideo), Hclip. simpl.
  rewrite Hwrite. simpl. now rewrite <- !app_assoc.
Qed.

Lemma transcribe_audio_success_run (w : World)
    (file_path output_path : string) (segments : list Segment) :
  env_WhisperModel env "medium" = None ->
  env_transcribe env file_path = Ok (stream_of segments) ->
  Forall (fun s => xml_compatible (text s) = true) segments ->
  env_save env output_path
    (Heading "Transcription" 1 :: body_paragraphs segments) = Written ->
  transcribe_audio env file_path output_path w
  = (Ok tt,
     {| fs := <[output_path
                := Docx (Heading "Transcription" 1
                         :: body_paragraphs segments)]> (fs w);
        trace := trace w ++ [EvWhisperModel "medium"]
                 ++ (EvCacheWrite <$> env_model_cache env "medium")
                 ++ [EvTranscribe file_path;
                     EvSave output_path
                       (Heading "Transcription" 1
                        :: body_paragraphs segments)];
        app := app w |}).
Proof.
  intros Hload Hmodel Htexts Hsave.
  rewrite (transcribe_audio_loop env w file_path output_path _ Hload Hmodel).
  run. rewrite (for_segments_stream_of segments _ _ Htexts). simpl.
  rewrite Hsave. simpl. trace_norm. reflexivity.
Qed.

Lemma transcribe_audio_fails_run (w : World) (file_path output_path : string)
    (e : exn) :
  model_fails env file_path e ->
  exists (raised : exn) (calls : list Event),
    transcribe_audio env file_path output_path w
    = (Raise raised,
       {| fs := fs w; trace := trace w ++ calls; app := app w |})
    /\ Forall (fun ev => save_event ev = false) calls
    /\ (raised = e
        \/ (raised = xml_error
            /\ exists yielded : list Segment,
                 env_transcribe env file_path = Ok (stream_failing yielded e)
                 /\ ~ Forall (fun s => xml_compatible (text s) = true)
                        yielded)).
Proof.
  intros [Hload | Hload Hcall | yielded Hload Hgen].
  - exists e, ([EvWhisperModel "medium"]
               ++ (EvCacheWrite <$> env_model_cache env "medium")).
    unfold transcribe_audio. run. rewrite Hload. simpl.
    rewrite <- !app_assoc. repeat split; [|now left].
    constructor; [reflexivity | apply cache_writes_not_save].
  - exists e, ([EvWhisperModel "medium"]
               ++ (EvCacheWrite <$> env_model_cache env "medium")
               ++ [EvTranscribe file_path]).
    unfold transcribe_audio. run. rewrite Hload. simpl. rewrite Hcall. simpl.
    rewrite <- !app_assoc. repeat split; [|now left].
    constructor; [reflexivity|]. apply Forall_app.
    split; [apply cache_writes_not_save | repeat constructor].
  - rewrite (transcribe_audio_loop env w file_path output_path _ Hload Hgen).
    run.
    match goal with
    | |- context [for_segments _ ?d ?w0] =>
        destruct (for_segments_stream_failing yielded e d w0)
          as (raised & Hrun & Hcase)
    end.
    exists raised, ([EvWhisperModel "medium"]
                    ++ (EvCacheWrite <$> env_model_cache env "medium")
                    ++ [EvTranscribe file_path]).
    rewrite Hrun. simpl. repeat split.
    + constructor; [reflexivity|]. apply Forall_app.
      split; [apply cache_writes_not_save | repeat constructor].
    + destruct Hcase as [->|[-> Hbad]]; [now left|]. right.
      split; [reflexivity|]. now exists yielded.
Qed.

(** X14. A trigger on an input that is not on disk, or whose extension is
    not supported, stops at the normalizer: the only calls are the existence
    test and one error box with the normalizer's message, the status line
    shows the error message in the style it had, the file system is
    unchanged, and the speech model is never loaded. *)
Theorem transcribe_rejected_input (w : World) (selected output : string) :
  selected_file (app w) = Some selected -> selected <> "" ->
  output_file (app w) = Some output -> output <> "" ->
  (fs w !! selected = None ->
   transcribe env w
   = (Ok tt,
      {| fs := fs w;
         trace := trace w
                  ++ [EvExists selected;
                      EvMessageBox Critical "Erreur" "Le fichier n'existe pas."];
         app := with_status (app w) "Une erreur s'est produite."
                  (status_style (app w)) |}))
  /\ (is_Some (fs w !! selected) ->
      lower (splitext selected).2 ∉ supported_audio_formats ->
      lower (splitext selected).2 ∉ supported_video_formats ->
      transcribe env w
      = (Ok tt,
         {| fs := fs w;
            trace := trace w
                     ++ [EvExists selected;
                         EvMessageBox Critical "Erreur"
                           "Format de fichier non pris en charge. Formats supportés : WAV, MP3, M4A, MP4, AVI, MOV, MKV."];
            app := with_status (app w) "Une erreur s'est produite."
                     (status_style (app w)) |})).
Proof.
  intros Hs Hs_ne Ho Ho_ne.
  rewrite (transcribe_both_set env w selected output Hs Hs_ne Ho Ho_ne).
  split.
  - intros Hnone. run. rewrite (validate_not_found_run w selected Hnone).
    simpl. now rewrite <- !app_assoc.
  - intros Hex Haudio Hvideo. run.
    rewrite (validate_unsupported_run w selected Hex Haudio Hvideo).
    simpl. now rewrite <- !app_assoc.
Qed.

(** X15. No cleanup after a failed transcription of a video: when the
    extraction succeeds and the model then fails with [e], the trigger ends
    with the error box and the error status, the extracted [.mp3] stays on
    disk beside the video, and no document is saved. The box carries
    [str(e)], unless a segment yielded before the failure has a text the
    document refuses: then it carries that error. *)
Theorem transcribe_video_model_failure (w : World) (selected output : string)
    (e : exn) :
  selected_file (app w) = Some selected -> selected <> "" ->
  output_file (app w) = Some output -> output <> "" ->
  is_Some (fs w !! selected) ->
  lower (splitext selected).2 ∈ supported_video_formats ->
  env_VideoFileClip env selected = Ok true ->
  env_write_audiofile env selected (audio_path_of selected) = Written ->
  model_fails env (audio_path_of selected) e ->
  exists (raised : exn) (calls : list Event),
    transcribe env w
    = (Ok tt,
       {| fs := <[audio_path_of selected := ExtractedAudio selected]> (fs w);
          trace := trace w
                   ++ [EvExists selected; EvVideoFileClip selected;
                       EvWriteAudiofile selected (audio_path_of selected);
                       EvProcessEvents]
                   ++ calls
                   ++ [EvMessageBox Critical "Erreur" (str raised)];
          app := with_status (app w) "Une erreur s'est produite."
                   "font-weight: bold;" |})
    /\ Forall (fun ev => save_event ev = false) calls
    /\ (raised = e
        \/ (raised = xml_error
            /\ exists yielded : list Segment,
                 env_transcribe env (audio_path_of selected)
                 = Ok (stream_failing yielded e)
                 /\ ~ Forall (fun s => xml_compatible (text s) = true)
                        yielded)).
Proof.
  intros Hs Hs_ne Ho Ho_ne Hex Hvideo Hclip Hwrite Hfail.
  rewrite (transcribe_both_set env w selected output Hs Hs_ne Ho Ho_ne).
  run. rewrite (validate_video_run w selected Hex Hvideo Hclip Hwrite).
  simpl.
  match goal with
  | |- context [transcribe_audio env ?f ?o ?w0] =>
      destruct (transcribe_audio_fails_run w0 f o e Hfail)
        as (raised & calls & Hrun & Hcalls & Hcase)
  end.
  exists raised, calls. split; [|split; [exact Hcalls | exact Hcase]].
  rewrite Hrun. simpl. now rewrite <- !app_assoc.
Qed.

(** X16. A whole successful run on an audio file: with an existing audio
    input, a model that returns the segments of a list whose texts are all
    XML compatible, and a save that writes its file, the output then holds
    the heading and one paragraph per segment, and no other file outside
    the model's cache changes; the calls are, in order, the existence
    test, the event flush, the model load with the weight files it puts
    into its cache, the transcription of the selected file itself, the save
    and the information box naming the output path; the status line shows
    the success message. *)
Theorem transcribe_audio_input_succeeds (w : World) (selected output : string)
    (segments : list Segment) :
  selected_file (app w) = Some selected -> selected <> "" ->
  output_file (app w) = Some output -> output <> "" ->
  is_Some (fs w !! selected) ->
  lower (splitext selected).2 ∈ supported_audio_formats ->
  env_WhisperModel env "medium" = None ->
  env_transcribe env selected = Ok (stream_of segments) ->
  Forall (fun s => xml_compatible (text s) = true) segments ->
  env_save env output (Heading "Transcription" 1 :: body_paragraphs segments)
  = Written ->
  transcribe env w
  = (Ok tt,
     {| fs := <[output := Docx (Heading "Transcription" 1
                                :: body_paragraphs segments)]> (fs w);
        trace := trace w
                 ++ [EvExists selected; EvProcessEvents;
                     EvWhisperModel "medium"]
                 ++ (EvCacheWrite <$> env_model_cache env "medium")
                 ++ [EvTranscribe selected;
                     EvSave output (Heading "Transcription" 1
                                    :: body_paragraphs segments);
                     EvMessageBox Information "Succès"
                       ("La transcription a été enregistrée dans "
                        +:+ output +:+ ".")];
        app := with_status (app w) "Transcription terminée avec succès !"
                 "font-weight: bold;" |}).
Proof.
  intros Hs Hs_ne Ho Ho_ne Hex Haudio Hload Hmodel Htexts Hsave.
  rewrite (transcribe_both_set env w selected output Hs Hs_ne Ho Ho_ne).
  run. rewrite (validate_audio_run env w selected Hex Haudio). simpl.
  rewrite (transcribe_audio_success_run _ selected output segments
             Hload Hmodel Htexts Hsave).
  simpl. trace_norm. reflexivity.
Qed.

(** X17. A whole successful run on a video, with segment texts that are all
    XML compatible: the model is run on the extracted [.mp3], not on the
    video; the sibling [.mp3] and the output document are written, and no
    other file outside the model's cache changes; the information box names
    the output path and the status line shows the success message. *)
Theorem transcribe_video_input_succeeds (w : World) (selected output : string)
    (segments : list Segment) :
  selected_file (app w) = Some selected -> selected <> "" ->
  output_file (app w) = Some output -> output <> "" ->
  is_Some (fs w !! selected) ->
  lower (splitext selected).2 ∈ supported_video_formats ->
  env_VideoFileClip env selected = Ok true ->
  env_write_audiofile env selected (audio_path_of selected) = Written ->
  env_WhisperModel env "medium" = None ->
  env_transcribe env (audio_path_of selected) = Ok (stream_of segments) ->
  Forall (fun s => xml_compatible (text s) = true) segments ->
  env_save env output (Heading "Transcription" 1 :: body_paragraphs segments)
  = Written ->
  transcribe env w
  = (Ok tt,
     {| fs := <[output := Docx (Heading "Transcription" 1
                                :: body_paragraphs segments)]>
                (<[audio_path_of selected := ExtractedAudio selected]> (fs w));
        trace := trace w
                 ++ [EvExists selected; EvVideoFileClip selected;
                     EvWriteAudiofile selected (audio_path_of selected);
                     EvProcessEvents;
                     EvWhisperModel "medium"]
                 ++ (EvCacheWrite <$> env_model_cache env "medium")
                 ++ [EvTranscribe (audio_path_of selected);
                     EvSave output (Heading "Transcription" 1
                                    :: body_paragraphs segments);
                     EvMessageBox Information "Succès"
                       ("La transcription a été enregistrée dans "
                        +:+ output +:+ ".")];
        app := with_status (app w) "Transcription terminée avec succès !"
                 "font-weight: bold;" |}).
Proof.
  intros Hs Hs_ne Ho Ho_ne Hex Hvideo Hclip Hwrite Hload Hmodel Htexts Hsave.
  rewrite (transcribe_both_set env w selected output Hs Hs_ne Ho Ho_ne).
  run. rewrite (validate_video_run w selected Hex Hvideo Hclip Hwrite).
  simpl.
  rewrite (transcribe_audio_success_run _ (audio_path_of selected) output
             segments Hload Hmodel Htexts Hsave).
  simpl. trace_norm. reflexivity.
Qed.

End TriggerRuns.

(** * The further properties at concrete inputs *)

Section MoreWitnesses.
Import PyStr OsPath.

(** The world the normalizer leaves after extracting ["clip.mp3"]. *)
Lemma validate_returns_audio_on_disk_witness :
  is_Some (fs (validate_and_convert_file env_ok "clip.mp4" world0).2
             !! "clip.mp3")
  /\ lower (splitext "clip.mp3").2 ∈ supported_audio_formats.
Proof.
  exact (validate_returns_audio_on_disk env_ok world0
           (validate_and_convert_file env_ok "clip.mp4" world0).2
           "clip.mp4" "clip.mp3" eq_refl).
Defined.

Lemma validate_idempotent_witness :
  validate_and_convert_file env_ok "clip.mp3"
    (validate_and_convert_file env_ok "clip.mp4" world0).2
  = (Ok "clip.mp3",
     {| fs := <["clip.mp3" := ExtractedAudio "clip.mp4"]> (fs world0);
        trace := [EvExists "clip.mp4"; EvVideoFileClip "clip.mp4";
                  EvWriteAudiofile "clip.mp4" "clip.mp3";
                  EvExists "clip.mp3"];
        app := TranscriptionApp_init |}).
Proof.
  exact (validate_idempotent env_ok world0
           (validate_and_convert_file env_ok "clip.mp4" world0).2
           "clip.mp4" "clip.mp3" eq_refl).
Defined.

Lemma validate_rejects_dot_file_witness :
  validate_and_convert_file env_ok "/home/u/.mp4" world_hidden
  = (Raise (ValueError "Format de fichier non pris en charge. Formats supportés : WAV, MP3, M4A, MP4, AVI, MOV, MKV."),
     {| fs := fs world_hidden; trace := [EvExists "/home/u/.mp4"];
        app := TranscriptionApp_init |}).
Proof.
  refine (validate_rejects_dot_file env_ok world_hidden "/home/u/" "mp4"
            eq_refl eq_refl eq_refl _).
  exists (Media 4). reflexivity.
Defined.

(** A save that fails leaves a partial document; the audio file is as
    before. *)
Lemma transcribe_audio_only_writes_destination_witness :
  fs (transcribe_audio env_save_fails "talk.WAV" "out.docx" world0).2
    !! "talk.WAV" = Some (Media 2)
  /\ app (transcribe_audio env_save_fails "talk.WAV" "out.docx" world0).2
     = TranscriptionApp_init
  /\ exists rest : list Event,
       trace (transcribe_audio env_save_fails "talk.WAV" "out.docx" world0).2
       = [EvWhisperModel "medium"] ++ rest
       /\ Forall (fun ev => cache_event ev = false) rest.
Proof.
  refine (transcribe_audio_only_writes_destination env_save_fails world0
            "talk.WAV" "out.docx" "talk.WAV" _).
  discriminate.
Defined.

(** A first run on a video: a third file is untouched, and the cache
    receives the weights of the one load. *)
Lemma transcribe_only_writes_sibling_and_output_witness :
  fs (transcribe env_first_run world_ready).2 !! "talk.WAV" = Some (Media 2)
  /\ exists before loaded after : list Event,
       trace (transcribe env_first_run world_ready).2
       = trace world_ready ++ before ++ loaded ++ after
       /\ Forall (fun ev => cache_event ev = false) before
       /\ Forall (fun ev => cache_event ev = false) after
       /\ (loaded = []
           \/ loaded
              = EvCacheWrite <$> env_model_cache env_first_run "medium").
Proof.
  refine (transcribe_only_writes_sibling_and_output env_first_run world_ready
            "talk.WAV" _ _).
  - intros selected [= <-]. discriminate.
  - intros output [= <-]. discriminate.
Defined.

Lemma transcribe_keeps_input_file_witness :
  fs (transcribe env_ok world_ready).2 !! "clip.mp4" = Some (Media 1).
Proof.
  exact (transcribe_keeps_input_file env_ok world_ready "clip.mp4"
           eq_refl eq_refl).
Defined.

Lemma selection_never_cleared_witness :
  is_Some (selected_file
             (app (after_clicks env_ok
                     [ClickSelectFile ""; ClickTranscribe;
                      ClickSelectOutput "out"]
                     world_missing)))
  /\ is_Some (output_file
                (app (after_clicks env_ok
                        [ClickSelectFile ""; ClickTranscribe;
                         ClickSelectOutput "out"]
                        world_missing))).
Proof.
  destruct (selection_never_cleared env_ok
              [ClickSelectFile ""; ClickTranscribe; ClickSelectOutput "out"]
              world_missing) as [Hin Hout].
  split; [apply Hin | apply Hout]; eexists; reflexivity.
Defined.

(** Three clicks on the trigger and two cancelled or output-only dialogs:
    nothing is written. *)
Lemma nothing_runs_before_both_selected_witness :
  fs (after_clicks env_ok
        [ClickTranscribe; ClickSelectOutput "out"; ClickTranscribe;
         ClickSelectFile ""; ClickTranscribe]
        {| fs := fs world0; trace := []; app := TranscriptionApp_init |})
  = fs world0.
Proof.
  refine (proj1 (nothing_runs_before_both_selected env_ok
                   [ClickTranscribe; ClickSelectOutput "out"; ClickTranscribe;
                    ClickSelectFile ""; ClickTranscribe]
                   (fs world0) [] _)).
  left. repeat constructor.
Defined.

Lemma last_choice_wins_witness :
  app (select_file "clip.mp4" (select_file "talk.WAV" world0).2).2
  = app (select_file "clip.mp4" world0).2
  /\ app (select_output_file "clip.mp4"
            (select_output_file "talk.WAV" world0).2).2
     = app (select_output_file "clip.mp4" world0).2.
Proof.
  refine (last_choice_wins world0 "talk.WAV" "clip.mp4" _). discriminate.
Defined.

Lemma reselect_stored_output_witness :
  app (select_output_file "out.docx" (select_output_file "out" world0).2).2
  = app (select_output_file "out" world0).2.
Proof.
  refine (reselect_stored_output world0 "out" "out.docx" _ eq_refl).
  discriminate.
Defined.

Lemma output_label_names_docx_witness :
  exists name : string,
    output_label (app (select_output_file "/home/u/notes" world0).2)
    = "Fichier de sortie : " +:+ name
    /\ endswith name ".docx" = true
    /\ rfind name sep = -1.
Proof.
  refine (output_label_names_docx world0 "/home/u/notes" _). discriminate.
Defined.

Lemma transcribe_rejected_input_witness :
  transcribe env_ok world_missing
  = (Ok tt,
     {| fs := fs world0;
        trace := [EvExists "missing.wav";
                  EvMessageBox Critical "Erreur" "Le fichier n'existe pas."];
        app := with_status (app world_missing) "Une erreur s'est produite."
                 "" |}).
Proof.
  refine (proj1 (transcribe_rejected_input env_ok world_missing
                   "missing.wav" "out.docx" eq_refl _ eq_refl _) eq_refl);
    discriminate.
Defined.

Lemma transcribe_video_model_failure_witness :
  exists (raised : exn) (calls : list Event),
    transcribe env_stream_raises world_ready
    = (Ok tt,
       {| fs := <["clip.mp3" := ExtractedAudio "clip.mp4"]> (fs world0);
          trace := [EvExists "clip.mp4"; EvVideoFileClip "clip.mp4";
                    EvWriteAudiofile "clip.mp4" "clip.mp3"; EvProcessEvents]
                   ++ calls
                   ++ [EvMessageBox Critical "Erreur" (str raised)];
          app := with_status (app world_ready) "Une erreur s'est produite."
                   "font-weight: bold;" |})
    /\ Forall (fun ev => save_event ev = false) calls
    /\ (raised = ExternalError "RuntimeError" "decoding failed"
        \/ (raised = xml_error
            /\ exists yielded : list Segment,
                 env_transcribe env_stream_raises "clip.mp3"
                 = Ok (stream_failing yielded
                         (ExternalError "RuntimeError" "decoding failed"))
                 /\ ~ Forall (fun s => xml_compatible (text s) = true)
                        yielded)).
Proof.
  refine (transcribe_video_model_failure env_stream_raises world_ready
            "clip.mp4" "out.docx"
            (ExternalError "RuntimeError" "decoding failed")
            eq_refl _ eq_refl _ world0_has_clip clip_is_video eq_refl eq_refl
            _); try discriminate.
  apply (generator_fails _ _ _ [seg " Bonjour."]); reflexivity.
Defined.

(** A first run on an audio file: the weights are downloaded into the
    cache, then the document is saved. *)
Lemma transcribe_audio_input_succeeds_witness :
  transcribe env_first_run world_audio_ready
  = (Ok tt,
     {| fs := <["out.docx" := Docx [Heading "Transcription" 1;
                                    Para " Bonjour."; Para " Merci."]]>
                (fs world0);
        trace := [EvExists "talk.WAV"; EvProcessEvents;
                  EvWhisperModel "medium";
                  EvCacheWrite "/home/u/.cache/huggingface/hub/model.bin";
                  EvTranscribe "talk.WAV";
                  EvSave "out.docx" [Heading "Transcription" 1;
                                     Para " Bonjour."; Para " Merci."];
                  EvMessageBox Information "Succès"
                    "La transcription a été enregistrée dans out.docx."];
        app := with_status (app world_audio_ready)
                 "Transcription terminée avec succès !"
                 "font-weight: bold;" |}).
Proof.
  assert (Htexts : Forall (fun s => xml_compatible (text s) = true)
                      [seg " Bonjour."; seg " Merci."])
    by (repeat constructor).
  refine (transcribe_audio_input_succeeds env_first_run world_audio_ready
            "talk.WAV" "out.docx" [seg " Bonjour."; seg " Merci."]
            eq_refl _ eq_refl _ world0_has_talk talk_is_audio
            eq_refl eq_refl Htexts eq_refl); discriminate.
Defined.

Lemma transcribe_video_input_succeeds_witness :
  transcribe env_first_run world_ready
  = (Ok tt,
     {| fs := <["out.docx" := Docx [Heading "Transcription" 1;
                                    Para " Bonjour."; Para " Merci."]]>
                (<["clip.mp3" := ExtractedAudio "clip.mp4"]> (fs world0));
        trace := [EvExists "clip.mp4"; EvVideoFileClip "clip.mp4";
                  EvWriteAudiofile "clip.mp4" "clip.mp3"; EvProcessEvents;
                  EvWhisperModel "medium";
                  EvCacheWrite "/home/u/.cache/huggingface/hub/model.bin";
                  EvTranscribe "clip.mp3";
                  EvSave "out.docx" [Heading "Transcription" 1;
                                     Para " Bonjour."; Para " Merci."];
                  EvMessageBox Information "Succès"
                    "La transcription a été enregistrée dans out.docx."];
        app := with_status (app world_ready)
                 "Transcription terminée avec succès !"
                 "font-weight: bold;" |}).
Proof.
  assert (Htexts : Forall (fun s => xml_compatible (text s) = true)
                      [seg " Bonjour."; seg " Merci."])
    by (repeat constructor).
  refine (transcribe_video_input_succeeds env_first_run world_ready
            "clip.mp4" "out.docx" [seg " Bonjour."; seg " Merci."]
            eq_refl _ eq_refl _ world0_has_clip clip_is_video
            eq_refl eq_refl eq_refl eq_refl Htexts eq_refl); discriminate.
Defined.

End MoreWitnesses.
